(** * Mission ingestion service: weather client and mission API

    A shallow embedding of [utils/weather.py] and [main.py].  Python
    dictionaries are finite maps with string keys, parsed JSON values are
    an inductive type, exceptions are an explicit result type, and the
    effects of the service (the outbound HTTP GET, the logger, the system
    clock) are threaded through a state monad over a [world]. *)

From Stdlib Require Import ZArith NArith String Ascii List Bool Lia.
From Stdlib Require Import Floats DecimalString.
From stdpp Require Import base option gmap strings.

Local Open Scope string_scope.

(** ** Parsed JSON values

    What [response.json()] hands back: [None], [bool], [int], [float],
    [str], [list] and [dict] with string keys.  Python keeps [int] and
    [float] apart, and so does [JInt] / [JFloat]; floats are binary64. *)

#[warnings="-register-all"] Inductive json :=
| JNull
| JBool (b : bool)
| JInt (z : Z)
| JFloat (f : float)
| JStr (s : string)
| JList (l : list json)
| JDict (d : gmap string json).

(** [x is None] *)
Definition is_None (v : json) : bool :=
  match v with JNull => true | _ => false end.

(** ** Exceptions

    The classes that matter to the two [except] clauses of [get_weather]:
    the [httpx.HTTPError] family, other subclasses of [Exception], and the
    classes that derive from [BaseException] only. *)

Inductive exn_class :=
| TimeoutException | NetworkError | ProtocolError | HTTPStatusError
| JSONDecodeError | AttributeError | TypeError | RuntimeError
| CancelledError | KeyboardInterrupt.

Record exn := { exn_cls : exn_class; exn_msg : string }.

(** [isinstance(exc, httpx.HTTPError)] *)
Definition is_HTTPError (e : exn) : bool :=
  match exn_cls e with
  | TimeoutException | NetworkError | ProtocolError | HTTPStatusError => true
  | _ => false
  end.

(** [isinstance(exc, Exception)] *)
Definition is_Exception (e : exn) : bool :=
  match exn_cls e with
  | CancelledError | KeyboardInterrupt => false
  | _ => true
  end.

Inductive result (A : Type) :=
| Return (a : A)
| Raise (e : exn).
Arguments Return {A} a.
Arguments Raise {A} e.

(** ** Python primitives on parsed values *)

(** [type(v).__name__] *)
Definition type_name (v : json) : string :=
  match v with
  | JNull => "NoneType"
  | JBool _ => "bool"
  | JInt _ => "int"
  | JFloat _ => "float"
  | JStr _ => "str"
  | JList _ => "list"
  | JDict _ => "dict"
  end.

(** [obj.get(key, default)]: defined on dictionaries only; every other
    parsed value has no attribute [get]. *)
Definition py_get (obj : json) (key : string) (dflt : json) : result json :=
  match obj with
  | JDict d => Return (default dflt (d !! key))
  | _ => Raise {| exn_cls := AttributeError;
                  exn_msg := "'" +:+ type_name obj
                             +:+ "' object has no attribute 'get'" |}
  end.

Fixpoint float_of_pos (p : positive) : float :=
  match p with
  | xH => 1%float
  | xO q => (2 * float_of_pos q)%float
  | xI q => (2 * float_of_pos q + 1)%float
  end.

(** The float an [int] literal of the source is compared as (exact for the
    literals the source uses, [0] and [40]). *)
Definition float_of_literal (k : Z) : float :=
  match k with
  | Z0 => 0%float
  | Zpos p => float_of_pos p
  | Zneg p => (- float_of_pos p)%float
  end.

(** The [TypeError] of an ordering operator on a value and an [int]. *)
Definition not_supported (op : string) (v : json) : exn :=
  {| exn_cls := TypeError;
     exn_msg := "'" +:+ op +:+ "' not supported between instances of '"
                +:+ type_name v +:+ "' and 'int'" |}.

(** [v < k] for an [int] literal [k]: numbers compare numerically ([bool]
    is an [int]), anything else raises [TypeError]. *)
Definition py_lt (v : json) (k : Z) : result bool :=
  match v with
  | JInt z => Return (z <? k)%Z
  | JBool b => Return (Z.b2z b <? k)%Z
  | JFloat f => Return (f <? float_of_literal k)%float
  | _ => Raise (not_supported "<" v)
  end.

(** [v > k] for an [int] literal [k]. *)
Definition py_gt (v : json) (k : Z) : result bool :=
  match v with
  | JInt z => Return (k <? z)%Z
  | JBool b => Return (k <? Z.b2z b)%Z
  | JFloat f => Return (float_of_literal k <? f)%float
  | _ => Raise (not_supported ">" v)
  end.

(** Truth value of a parsed value, as [x if v else y] tests it. *)
Definition py_bool (v : json) : bool :=
  match v with
  | JNull => false
  | JBool b => b
  | JInt z => negb (z =? 0)%Z
  | JFloat f => negb (f =? 0)%float
  | JStr s => negb (String.eqb s "")
  | JList l => match l with [] => false | _ => true end
  | JDict d => negb (Nat.eqb (size d) 0)
  end.

(** ** [datetime]

    A naive [datetime] value.  The constructor of the Python class refuses
    fields out of range, which the record keeps as [datetime_ok]. *)

Definition datetime_fields_ok (y mo d h mi s us : N) : bool :=
  ((1 <=? y) && (y <=? 9999) && (1 <=? mo) && (mo <=? 12) && (1 <=? d) && (d <=? 31)
   && (h <=? 23) && (mi <=? 59) && (s <=? 59) && (us <=? 999999))%N.

Record datetime := {
  year : N; month : N; day : N;
  hour : N; minute : N; second : N; microsecond : N;
  datetime_ok : datetime_fields_ok year month day hour minute second microsecond = true
}.

Fixpoint zeros (k : nat) : string :=
  match k with
  | O => ""
  | S k' => String "0" (zeros k')
  end.

(** ["%0<w>d" % n] *)
Definition fmt_d (w : nat) (n : N) : string :=
  let s := NilZero.string_of_uint (N.to_uint n) in
  zeros (w - String.length s) +:+ s.

(** [datetime.isoformat()] of a naive value: no offset suffix, and the
    fraction is printed only when [microsecond] is not zero. *)
Definition isoformat (t : datetime) : string :=
  fmt_d 4 (year t) +:+ "-" +:+ fmt_d 2 (month t) +:+ "-" +:+ fmt_d 2 (day t)
  +:+ "T" +:+ fmt_d 2 (hour t) +:+ ":" +:+ fmt_d 2 (minute t) +:+ ":" +:+ fmt_d 2 (second t)
  +:+ (if (microsecond t =? 0)%N then "" else "." +:+ fmt_d 6 (microsecond t)).

(** ** The outside world

    [httpx] request and response, as far as the service looks at them. *)

Inductive param_value :=
| PFloat (f : float)
| PStr (s : string)
| PList (l : list string).

(** [httpx.Timeout(default, connect=...)] *)
Record Timeout := { timeout_default : float; timeout_connect : float }.

(** The GET as the client sends it: the arguments of [client.get] and of
    the [AsyncClient] constructor; [headers] and [auth] are the keyword
    arguments the source leaves at their defaults. *)
Record request := {
  req_url : string;
  req_params : gmap string param_value;
  req_timeout : Timeout;
  req_headers : gmap string string;
  req_auth : option (string * string)
}.

(** A response object: [is_success] decides [raise_for_status()], whose
    exception carries [status_line]; [json_body] is what [json()] does. *)
Record response := {
  is_success : bool;
  status_line : string;
  json_body : result json
}.

(** What [await client.get(...)] does. *)
Inductive get_outcome :=
| GetRaises (e : exn)
| GetReturns (r : response).

Inductive event :=
| EvGet (r : request)
| EvLogError (msg : string).

Record world := {
  w_http : request -> get_outcome;
  w_clock : nat -> datetime;
  w_reads : nat;
  w_trace : list event
}.

Definition emit (ev : event) (w : world) : world :=
  {| w_http := w_http w; w_clock := w_clock w; w_reads := w_reads w;
     w_trace := w_trace w ++ [ev] |}.

(** ** The monad of the service: state and exceptions *)

Definition M (A : Type) : Type := world -> result A * world.

Definition ret {A} (a : A) : M A := fun w => (Return a, w).

Definition bind {A B} (c : M A) (k : A -> M B) : M B :=
  fun w =>
    match c w with
    | (Return a, w') => k a w'
    | (Raise e, w') => (Raise e, w')
    end.

Definition lift {A} (r : result A) : M A := fun w => (r, w).

Notation "x <- c ;; k" := (bind c (fun x => k))
  (at level 62, c at next level, right associativity).
Notation "c ;;; k" := (bind c (fun _ => k))
  (at level 62, right associativity).

(** [try: body  except ...:]  The handler list is tried in order on the
    exception raised; with no clause that matches, it propagates. *)
Definition try_except {A} (body : M A) (handlers : exn -> option (M A)) : M A :=
  fun w =>
    match body w with
    | (Return a, w') => (Return a, w')
    | (Raise e, w') =>
        match handlers e with
        | Some h => h w'
        | None => (Raise e, w')
        end
    end.

(** [await client.get(url, params=params)] on a client built with [timeout]. *)
Definition client_get (timeout : Timeout) (url : string)
    (params : gmap string param_value) : M response :=
  fun w =>
    let r := {| req_url := url; req_params := params; req_timeout := timeout;
                req_headers := ∅; req_auth := None |} in
    match w_http w r with
    | GetRaises e => (Raise e, emit (EvGet r) w)
    | GetReturns resp => (Return resp, emit (EvGet r) w)
    end.

(** [response.raise_for_status()] *)
Definition raise_for_status (r : response) : M unit :=
  if is_success r then ret tt
  else lift (Raise {| exn_cls := HTTPStatusError; exn_msg := status_line r |}).

(** [logger.error(msg)] *)
Definition logger_error (msg : string) : M unit :=
  fun w => (Return tt, emit (EvLogError msg) w).

(** [datetime.utcnow()] *)
Definition utcnow : M datetime :=
  fun w => (Return (w_clock w (w_reads w)),
            {| w_http := w_http w; w_clock := w_clock w; w_reads := S (w_reads w);
               w_trace := w_trace w |}).

(** ** [utils/weather.py] *)

Definition API_URL : string := "https://api.open-meteo.com/v1/forecast".

(** The dictionary both [except] clauses return. *)
Definition fallback : gmap string json :=
  {[ "temperature" := JNull; "wind_speed" := JNull; "condition" := JStr "unknown" ]}.

Definition get_weather (latitude longitude : float) : M (gmap string json) :=
  let params : gmap string param_value :=
    {[ "latitude" := PFloat latitude;
       "longitude" := PFloat longitude;
       "current" := PList ["temperature_2m"; "wind_speed_10m"; "is_day"];
       "wind_speed_unit" := PStr "kmh";
       "timezone" := PStr "UTC" ]} in
  let timeout := {| timeout_default := 5; timeout_connect := 5 |} in
  try_except
    (response <- client_get timeout API_URL params ;;
     raise_for_status response ;;;
     data <- lift (json_body response) ;;
     current <- lift (py_get data "current" (JDict ∅)) ;;
     temperature <- lift (py_get current "temperature_2m" JNull) ;;
     wind_speed <- lift (py_get current "wind_speed_10m" JNull) ;;
     is_day <- lift (py_get current "is_day" JNull) ;;
     condition <-
       (if is_None temperature || is_None wind_speed then ret "unknown"
        else
          (below <- lift (py_lt temperature 0) ;;
           (if below : bool then ret "freezing"
            else
              (above <- lift (py_gt wind_speed 40) ;;
               (if above : bool then ret "windy"
                else ret (if py_bool is_day then "clear-day" else "clear-night")))))) ;;
     ret {[ "temperature" := temperature;
            "wind_speed" := wind_speed;
            "condition" := JStr condition ]})
    (fun exc =>
       if is_HTTPError exc then
         Some (logger_error ("HTTP error during weather fetch: " +:+ exn_msg exc) ;;;
               ret fallback)
       else if is_Exception exc then
         Some (logger_error ("Unexpected error in get_weather(): " +:+ exn_msg exc) ;;;
               ret fallback)
       else None).

(** ** [main.py] *)

(** What FastAPI sends back for a route: the status code and the JSON
    body; [None] stands for a body this development does not describe
    (the framework's report of a validation failure). *)
Record http_reply := { status : nat; body : option json }.

(** [health_check()] *)
Definition health_check : M (gmap string string) :=
  now <- utcnow ;;
  ret {[ "status" := "ok"; "timestamp" := isoformat now ]}.

(** [GET /health]: the route has no parameters; the returned dictionary is
    serialised as the body of a 200 reply. *)
Definition get_health : M http_reply :=
  answer <- health_check ;;
  ret {| status := 200; body := Some (JDict (JStr <$> answer)) |}.

Section MissionAPI.

(** [models.MissionRequest] is imported by [main.py] and declared
    elsewhere: the handler only reads [mission.latitude],
    [mission.longitude] and [mission.dict()], and FastAPI builds the
    value from the request body, or refuses the body. *)
Variable MissionRequest : Type.
Variable mission_latitude : MissionRequest -> float.
Variable mission_longitude : MissionRequest -> float.
Variable mission_dict : MissionRequest -> gmap string json.
Variable mission_validate : json -> option MissionRequest.

(** [create_mission(mission)] *)
Definition create_mission (mission : MissionRequest) : M (gmap string json) :=
  let mission_data := mission_dict mission in
  weather_data <- get_weather (mission_latitude mission) (mission_longitude mission) ;;
  now <- utcnow ;;
  let record : gmap string json :=
    {[ "mission" := JDict mission_data;
       "weather" := JDict weather_data;
       "ingestion_timestamp" := JStr (isoformat now) ]} in
  ret record.

(** [POST /mission]: FastAPI validates the body against the model
    before it calls the handler, and answers 422 when that fails; what
    the handler returns is the body of a 200 reply. *)
Definition post_mission (request_body : json) : M http_reply :=
  match mission_validate request_body with
  | None => ret {| status := 422; body := None |}
  | Some mission =>
      record <- create_mission mission ;;
      ret {| status := 200; body := Some (JDict record) |}
  end.

End MissionAPI.

(** ** [models.py] *)

Module models.

(** Modelled from the spec: [MissionRequest], the Pydantic model of the
    request body, which is declared in a module that is not among the
    sources.  Section 3 of the specification gives it as latitude (float,
    range -90..90), longitude (float, range -180..180) plus arbitrary
    mission-descriptive fields. *)
Record MissionRequest := {
  latitude : float;
  longitude : float;
  mission_fields : gmap string json
}.

(** Modelled from the spec: a required numeric field within [lo..hi]
    (section 6: required numeric fields, range-checked). *)
Definition number_in_range (lo hi : Z) (v : option json) : option float :=
  match v with
  | Some (JInt z) =>
      if ((lo <=? z) && (z <=? hi))%Z then Some (float_of_literal z) else None
  | Some (JFloat f) =>
      if ((float_of_literal lo <=? f) && (f <=? float_of_literal hi))%float
      then Some f else None
  | _ => None
  end.

(** Modelled from the spec: the validation of a request body against the
    model; the fields besides the coordinates pass through. *)
Definition validate (request_body : json) : option MissionRequest :=
  match request_body with
  | JDict d =>
      match number_in_range (-90) 90 (d !! "latitude"),
            number_in_range (-180) 180 (d !! "longitude") with
      | Some lat, Some lon =>
          Some {| latitude := lat; longitude := lon;
                  mission_fields := delete "latitude" (delete "longitude" d) |}
      | _, _ => None
      end
  | _ => None
  end.

(** Modelled from the spec: [mission.dict()], the request as a map. *)
Definition dict (mission : MissionRequest) : gmap string json :=
  <["latitude" := JFloat (latitude mission)]>
    (<["longitude" := JFloat (longitude mission)]> (mission_fields mission)).

End models.

(** Modelled from the spec: [POST /mission] over the model of
    [models.py] above. *)
Definition post_mission_spec : json -> M http_reply :=
  post_mission models.MissionRequest models.latitude models.longitude models.dict
    models.validate.

(** * Vocabulary of the properties *)

(** ** The weather client *)

(** The request [get_weather] hands to the HTTP client. *)
Definition weather_request (latitude longitude : float) : request :=
  {| req_url := API_URL;
     req_params :=
       {[ "latitude" := PFloat latitude;
          "longitude" := PFloat longitude;
          "current" := PList ["temperature_2m"; "wind_speed_10m"; "is_day"];
          "wind_speed_unit" := PStr "kmh";
          "timezone" := PStr "UTC" ]};
     req_timeout := {| timeout_default := 5; timeout_connect := 5 |};
     req_headers := ∅;
     req_auth := None |}.

(** The outbound requests recorded in a trace, oldest first. *)
Fixpoint requests_of (tr : list event) : list request :=
  match tr with
  | [] => []
  | EvGet r :: tr' => r :: requests_of tr'
  | EvLogError _ :: tr' => requests_of tr'
  end.

(** The outcome raises nothing outside [Exception]: it is a response, a
    network fault, a bad status or a parsing exception, and not the
    cancellation of the task or the interruption of the interpreter. *)
Definition ordinary_outcome (o : get_outcome) : bool :=
  match o with
  | GetRaises e => is_Exception e
  | GetReturns r =>
      match json_body r with
      | Raise e => is_Exception e
      | Return _ => true
      end
  end.

(** The failures of the upstream call: a timeout, any other fault of the
    [httpx.HTTPError] family raised by the GET, a status that is not a
    success. *)
Inductive http_failure : get_outcome -> Prop :=
| failure_timeout e :
    exn_cls e = TimeoutException -> http_failure (GetRaises e)
| failure_network e :
    is_HTTPError e = true -> http_failure (GetRaises e)
| failure_status resp :
    is_success resp = false -> http_failure (GetReturns resp).

(** What the failure is logged with. *)
Definition failure_reason (o : get_outcome) : string :=
  match o with
  | GetRaises e => exn_msg e
  | GetReturns resp => status_line resp
  end.

(** The rules of the specification (section 4.2, step 4) in their order:
    each rule applies only when the ones before it do not. *)
Inductive condition_rule (temperature wind_speed is_day : json) : string -> Prop :=
| rule_unknown :
    temperature = JNull \/ wind_speed = JNull ->
    condition_rule temperature wind_speed is_day "unknown"
| rule_freezing :
    temperature <> JNull -> wind_speed <> JNull ->
    py_lt temperature 0 = Return true ->
    condition_rule temperature wind_speed is_day "freezing"
| rule_windy :
    temperature <> JNull -> wind_speed <> JNull ->
    py_lt temperature 0 = Return false ->
    py_gt wind_speed 40 = Return true ->
    condition_rule temperature wind_speed is_day "windy"
| rule_clear_day :
    temperature <> JNull -> wind_speed <> JNull ->
    py_lt temperature 0 = Return false ->
    py_gt wind_speed 40 = Return false ->
    py_bool is_day = true ->
    condition_rule temperature wind_speed is_day "clear-day"
| rule_clear_night :
    temperature <> JNull -> wind_speed <> JNull ->
    py_lt temperature 0 = Return false ->
    py_gt wind_speed 40 = Return false ->
    py_bool is_day = false ->
    condition_rule temperature wind_speed is_day "clear-night".

(** A partial fallback, in the words of the data model: exactly one of
    the two readings is null, or the condition is "unknown" next to a
    reading that carries a value. *)
Definition partial_fallback (res : gmap string json) : Prop :=
  exists t ws c,
    res !! "temperature" = Some t /\ res !! "wind_speed" = Some ws
    /\ res !! "condition" = Some (JStr c)
    /\ ((t = JNull /\ ws <> JNull) \/ (t <> JNull /\ ws = JNull)
        \/ (c = "unknown" /\ (t <> JNull \/ ws <> JNull))).

(** ** Numbers in a body *)

Definition not_a_number (v : json) : Prop :=
  match v with
  | JInt _ | JFloat _ => False
  | _ => True
  end.

(** [v] is a JSON number and [v < k]. *)
Definition number_lt (v : json) (k : Z) : Prop :=
  match v with
  | JInt z => (z < k)%Z
  | JFloat f => (f <? float_of_literal k)%float = true
  | _ => False
  end.

(** [v] is a JSON number and [v <= k]. *)
Definition number_le (v : json) (k : Z) : Prop :=
  match v with
  | JInt z => (z <= k)%Z
  | JFloat f => (f <=? float_of_literal k)%float = true
  | _ => False
  end.

(** [v] is a JSON number and [v > k]. *)
Definition number_gt (v : json) (k : Z) : Prop :=
  match v with
  | JInt z => (k < z)%Z
  | JFloat f => (float_of_literal k <? f)%float = true
  | _ => False
  end.

(** [v] is a JSON number and [v >= k]. *)
Definition number_ge (v : json) (k : Z) : Prop :=
  match v with
  | JInt z => (k <= z)%Z
  | JFloat f => (float_of_literal k <=? f)%float = true
  | _ => False
  end.

(** ** Request bodies that the schema refuses *)

(** A required field that is missing, not a number, or outside
    [lo..hi]. *)
Definition field_violation (lo hi : Z) (v : option json) : Prop :=
  match v with
  | None => True
  | Some x => not_a_number x \/ number_lt x lo \/ number_gt x hi
  end.

Definition schema_violation (request_body : json) : Prop :=
  match request_body with
  | JDict d =>
      field_violation (-90) 90 (d !! "latitude")
      \/ field_violation (-180) 180 (d !! "longitude")
  | _ => True
  end.

(** ** The shape of a timestamp *)

Definition is_digit (c : ascii) : bool :=
  let n := N_of_ascii c in ((48 <=? n) && (n <=? 57))%N.

(** [s] is [k] decimal digits and nothing else. *)
Fixpoint exact_digits (k : nat) (s : string) : bool :=
  match k, s with
  | O, EmptyString => true
  | S k', String c s' => is_digit c && exact_digits k' s'
  | _, _ => false
  end.

(** Read [k] decimal digits off the front of [s]. *)
Fixpoint digits_then (k : nat) (s : string) : option string :=
  match k with
  | O => Some s
  | S k' =>
      match s with
      | String c s' => if is_digit c then digits_then k' s' else None
      | EmptyString => None
      end
  end.

(** Read the character [c] off the front of [s]. *)
Definition char_then (c : ascii) (s : string) : option string :=
  match s with
  | String c' s' => if Ascii.eqb c c' then Some s' else None
  | EmptyString => None
  end.

Inductive piece :=
| Digits (k : nat)
| Char (c : ascii).

Definition read (p : piece) (s : string) : option string :=
  match p with
  | Digits k => digits_then k s
  | Char c => char_then c s
  end.

(** Read the pieces off the front of [s], one after the other. *)
Fixpoint read_all (ps : list piece) (s : string) : option string :=
  match ps with
  | [] => Some s
  | p :: ps' =>
      match read p s with
      | Some s' => read_all ps' s'
      | None => None
      end
  end.

(** The ISO 8601 extended form of a date and time of day,
    [YYYY-MM-DDThh:mm:ss] with an optional fraction of six digits and
    without a zone designator. *)
Definition iso8601 (s : string) : bool :=
  match
    read_all [Digits 4; Char "-"; Digits 2; Char "-"; Digits 2; Char "T";
              Digits 2; Char ":"; Digits 2; Char ":"; Digits 2] s
  with
  | Some EmptyString => true
  | Some rest =>
      match read_all [Char "."; Digits 6] rest with
      | Some EmptyString => true
      | _ => false
      end
  | None => false
  end.

(** [p] holds of every number below [bound]. *)
Definition all_below (bound : N) (p : N -> bool) : bool :=
  snd (N.iter bound (fun st => (N.succ (fst st), snd st && p (fst st))) (0%N, true)).

(** ** Sample worlds *)

Definition noon : datetime :=
  {| year := 2024; month := 5; day := 17; hour := 12; minute := 0; second := 0;
     microsecond := 0; datetime_ok := eq_refl |}.

Definition later : datetime :=
  {| year := 2024; month := 5; day := 17; hour := 12; minute := 0; second := 1;
     microsecond := 250000; datetime_ok := eq_refl |}.

(** A world where every GET has the outcome [o], the clock reads [noon]
    first and [later] afterwards, and nothing has happened yet. *)
Definition world_of (o : get_outcome) : world :=
  {| w_http := fun _ => o;
     w_clock := fun n => match n with O => noon | S _ => later end;
     w_reads := 0;
     w_trace := [] |}.

Definition timed_out : get_outcome :=
  GetRaises {| exn_cls := TimeoutException; exn_msg := "timed out" |}.

Definition unavailable : get_outcome :=
  GetReturns {| is_success := false;
                status_line := "Server error '503 Service Unavailable'";
                json_body := Return JNull |}.

Definition cancelled : get_outcome :=
  GetRaises {| exn_cls := CancelledError; exn_msg := "" |}.

Definition answers (data : json) : get_outcome :=
  GetReturns {| is_success := true; status_line := "200 OK"; json_body := Return data |}.

(** A body with the given readings under [current]. *)
Definition readings (fields : gmap string json) : json :=
  JDict {[ "latitude" := JFloat 45; "longitude" := JFloat 9; "current" := JDict fields ]}.

(** -5 degrees, 10 km/h, by day. *)
Definition cold_day : gmap string json :=
  {[ "temperature_2m" := JFloat (-5); "wind_speed_10m" := JFloat 10;
     "is_day" := JBool true ]}.

(** 10 degrees, 50 km/h, by night. *)
Definition gale_night : gmap string json :=
  {[ "temperature_2m" := JInt 10; "wind_speed_10m" := JInt 50;
     "is_day" := JBool false ]}.

(** 10 degrees, 10 km/h, with the flag as the forecast service sends it. *)
Definition mild (is_day : Z) : gmap string json :=
  {[ "temperature_2m" := JFloat 10; "wind_speed_10m" := JFloat 10;
     "is_day" := JInt is_day ]}.

(** 12.5 degrees and no wind reading. *)
Definition no_wind_reading : gmap string json :=
  {[ "temperature_2m" := JFloat 12.5; "wind_speed_10m" := JNull;
     "is_day" := JInt 1 ]}.

(** 10 degrees, 10 km/h and no day flag. *)
Definition no_day_flag : gmap string json :=
  {[ "temperature_2m" := JFloat 10; "wind_speed_10m" := JInt 10 ]}.

(** The request of the specification's example, validated, and the same
    request moved to latitude 200. *)
Definition alpha : json :=
  JDict {[ "latitude" := JFloat 45; "longitude" := JFloat 9; "name" := JStr "Alpha" ]}.

Definition alpha_mission : models.MissionRequest :=
  {| models.latitude := 45; models.longitude := 9;
     models.mission_fields := {[ "name" := JStr "Alpha" ]} |}.

Definition off_the_globe : json :=
  JDict {[ "latitude" := JInt 200; "longitude" := JFloat 9; "name" := JStr "Alpha" ]}.

(** ** More vocabulary: the error log, readings that do not compare *)

(** The lines of the error log recorded in a trace, oldest first. *)
Fixpoint errors_of (tr : list event) : list string :=
  match tr with
  | [] => []
  | EvGet _ :: tr' => errors_of tr'
  | EvLogError m :: tr' => m :: errors_of tr'
  end.

(** An exception of the outbound call that the first [except] clause
    lets through and the second one catches: raised by the GET, or by
    [json()] on a response with a good status. *)
Inductive unexpected_failure : get_outcome -> exn -> Prop :=
| unexpected_get e :
    is_HTTPError e = false -> is_Exception e = true ->
    unexpected_failure (GetRaises e) e
| unexpected_json resp e :
    is_success resp = true -> json_body resp = Raise e ->
    is_HTTPError e = false -> is_Exception e = true ->
    unexpected_failure (GetReturns resp) e.

(** The value [.get] is called on and does not have: the body itself
    when it is not an object, or what the body holds under [current]. *)
Inductive get_less (data : json) : json -> Prop :=
| body_not_an_object :
    (forall d, data <> JDict d) -> get_less data data
| current_not_an_object d v :
    data = JDict d -> d !! "current" = Some v -> (forall cur, v <> JDict cur) ->
    get_less data v.

(** [v] is of a type Python orders against an [int]: [int], [bool] or
    [float]. *)
Definition orderable (v : json) : bool :=
  match v with
  | JBool _ | JInt _ | JFloat _ => true
  | _ => false
  end.

(** The comparison of the rules that fails on the readings [t] and [ws],
    both present: [t < 0] when [t] does not order, else [ws > 40] when
    [t] is not below zero and [ws] does not order. *)
Inductive failing_comparison (t ws : json) : exn -> Prop :=
| temperature_unorderable :
    orderable t = false -> failing_comparison t ws (not_supported "<" t)
| wind_speed_unorderable :
    py_lt t 0 = Return false -> orderable ws = false ->
    failing_comparison t ws (not_supported ">" ws).

(** A reading that is missing or null. *)
Definition absent (v : option json) : Prop := v = None \/ v = Some JNull.

(** ** More sample worlds *)

(** A 200 response whose body is not JSON. *)
Definition garbled : get_outcome :=
  GetReturns {| is_success := true; status_line := "200 OK";
                json_body := Raise {| exn_cls := JSONDecodeError;
                                      exn_msg := "Expecting value: line 1 column 1 (char 0)" |} |}.

(** -5 degrees and a wind speed in words. *)
Definition frost_and_words : gmap string json :=
  {[ "temperature_2m" := JFloat (-5); "wind_speed_10m" := JStr "strong";
     "is_day" := JInt 1 ]}.

(** A temperature in words and 3 km/h. *)
Definition words_and_breeze : gmap string json :=
  {[ "temperature_2m" := JStr "mild"; "wind_speed_10m" := JInt 3 ]}.

(** Exactly 0 degrees and exactly 40 km/h, by day. *)
Definition on_the_bounds : gmap string json :=
  {[ "temperature_2m" := JInt 0; "wind_speed_10m" := JFloat 40; "is_day" := JInt 1 ]}.

(** [cold_day] with more fields than the client asks for. *)
Definition cold_day_and_more : gmap string json :=
  {[ "time" := JStr "2024-05-17T12:00"; "interval" := JInt 900;
     "temperature_2m" := JFloat (-5); "wind_speed_10m" := JFloat 10;
     "is_day" := JBool true; "rain" := JFloat 0.5 ]}.

(** * Properties of the weather client *)

(** ** Python primitives and exceptions *)

Lemma HTTPError_is_Exception e : is_HTTPError e = true -> is_Exception e = true.
Proof. unfold is_HTTPError, is_Exception. now destruct (exn_cls e). Qed.

Lemma Timeout_is_HTTPError e : exn_cls e = TimeoutException -> is_HTTPError e = true.
Proof. unfold is_HTTPError. now intros ->. Qed.

Lemma py_get_raises obj key dflt e :
  py_get obj key dflt = Raise e -> exn_cls e = AttributeError.
Proof. destruct obj; simpl; intros H; try discriminate; now injection H as <-. Qed.

Lemma py_lt_raises v k e : py_lt v k = Raise e -> exn_cls e = TypeError.
Proof. destruct v; simpl; intros H; try discriminate; now injection H as <-. Qed.

Lemma py_gt_raises v k e : py_gt v k = Raise e -> exn_cls e = TypeError.
Proof. destruct v; simpl; intros H; try discriminate; now injection H as <-. Qed.

Lemma is_None_spec v : is_None v = true <-> v = JNull.
Proof. destruct v; simpl; split; congruence. Qed.

Lemma neither_None t ws :
  t <> JNull -> ws <> JNull -> is_None t || is_None ws = false.
Proof.
  intros Ht Hws. apply orb_false_iff. split; apply not_true_is_false;
    intros H; apply is_None_spec in H; contradiction.
Qed.

(** A [TypeError] goes to the second [except] clause. *)
Lemma TypeError_caught e :
  exn_cls e = TypeError -> is_HTTPError e = false /\ is_Exception e = true.
Proof. unfold is_HTTPError, is_Exception. now intros ->. Qed.

(** The literals of the rules are exact as floats. *)
Lemma float_of_literal_exact :
  float_of_literal 0 = 0%float /\ float_of_literal 40 = 40%float
  /\ float_of_literal (-90) = (-90)%float /\ float_of_literal 180 = 180%float.
Proof. repeat split; reflexivity. Qed.

Lemma SFcompare_antisym x y :
  SFcompare y x =
    match SFcompare x y with Some c => Some (CompOpp c) | None => None end.
Proof.
  destruct x as [sx|sx| |sx mx ex], y as [sy|sy| |sy my ey]; simpl; try reflexivity;
    try (destruct sx; reflexivity); try (destruct sy; reflexivity);
    try (destruct sx, sy; reflexivity).
  destruct sx, sy; try reflexivity.
  - rewrite (Z.compare_antisym ex ey). destruct (ex ?= ey)%Z; simpl; try reflexivity.
    rewrite CompOpp_involutive. f_equal. f_equal.
    rewrite Pos.compare_cont_antisym. reflexivity.
  - rewrite (Z.compare_antisym ex ey). destruct (ex ?= ey)%Z; simpl; try reflexivity.
    f_equal. rewrite Pos.compare_cont_antisym. reflexivity.
Qed.

(** On binary64, [x <= y] excludes [y < x]. *)
Lemma leb_not_ltb (x y : float) : (x <=? y)%float = true -> (y <? x)%float = false.
Proof.
  rewrite leb_spec, ltb_spec. unfold SFleb, SFltb.
  rewrite (SFcompare_antisym (Prim2SF x) (Prim2SF y)).
  destruct (SFcompare (Prim2SF x) (Prim2SF y)) as [[| |]|]; simpl; congruence.
Qed.

Lemma number_ge_not_lt v k : number_ge v k -> py_lt v k = Return false.
Proof.
  destruct v; simpl; try contradiction; intros H.
  - f_equal. apply Z.ltb_ge. exact H.
  - f_equal. apply leb_not_ltb. exact H.
Qed.

Lemma number_le_not_gt v k : number_le v k -> py_gt v k = Return false.
Proof.
  destruct v; simpl; try contradiction; intros H.
  - f_equal. apply Z.ltb_ge. exact H.
  - f_equal. apply leb_not_ltb. exact H.
Qed.

(** ** The dictionary of a result *)


Lemma weather_dict_lookup (t ws c : json) :
  let res : gmap string json :=
    {[ "temperature" := t; "wind_speed" := ws; "condition" := c ]} in
  res !! "temperature" = Some t /\ res !! "wind_speed" = Some ws
  /\ res !! "condition" = Some c.
Proof.
  cbv zeta. split; [|split].
  - apply lookup_insert_eq.
  - rewrite lookup_insert_ne by done. apply lookup_insert_eq.
  - rewrite !lookup_insert_ne by done. apply lookup_singleton_eq.
Qed.

Lemma condition_rule_vocabulary t ws day c :
  condition_rule t ws day c ->
  In c ["unknown"; "freezing"; "windy"; "clear-day"; "clear-night"].
Proof. destruct 1; simpl; tauto. Qed.

Lemma condition_rule_unknown t ws day c :
  condition_rule t ws day c -> (c = "unknown" <-> t = JNull \/ ws = JNull).
Proof. destruct 1; split; try discriminate; try tauto. Qed.

(** ** Running [get_weather]

    One equation for each way through the function.  The steps of the
    monad are unfolded and the dictionaries are left alone. *)

Ltac run_weather :=
  cbv beta iota zeta delta
    [get_weather try_except bind lift ret client_get raise_for_status logger_error].

Lemma requests_of_app tr1 tr2 :
  requests_of (tr1 ++ tr2) = (requests_of tr1 ++ requests_of tr2)%list.
Proof.
  induction tr1 as [|[r|m] tr1 IH]; simpl; [reflexivity | | assumption].
  now rewrite IH.
Qed.

Lemma requests_of_log logs : requests_of (map EvLogError logs) = [].
Proof. induction logs as [|m logs IH]; [reflexivity | exact IH]. Qed.

(** The GET itself raises. *)
Lemma get_weather_get_raises latitude longitude w e :
  w_http w (weather_request latitude longitude) = GetRaises e ->
  get_weather latitude longitude w =
    let w1 := emit (EvGet (weather_request latitude longitude)) w in
    if is_HTTPError e then
      (Return fallback,
       emit (EvLogError ("HTTP error during weather fetch: " +:+ exn_msg e)) w1)
    else if is_Exception e then
      (Return fallback,
       emit (EvLogError ("Unexpected error in get_weather(): " +:+ exn_msg e)) w1)
    else (Raise e, w1).
Proof.
  intros Hout. unfold weather_request in *. run_weather. rewrite Hout.
  cbv beta iota zeta.
  destruct (is_HTTPError e); [reflexivity|].
  destruct (is_Exception e); reflexivity.
Qed.

(** The response has a status that is not a success. *)
Lemma get_weather_bad_status latitude longitude w resp :
  w_http w (weather_request latitude longitude) = GetReturns resp ->
  is_success resp = false ->
  get_weather latitude longitude w =
    (Return fallback,
     emit (EvLogError ("HTTP error during weather fetch: " +:+ status_line resp))
       (emit (EvGet (weather_request latitude longitude)) w)).
Proof.
  intros Hout Hst. unfold weather_request in *. run_weather.
  rewrite Hout. cbv beta iota zeta. rewrite Hst. reflexivity.
Qed.

(** [response.json()] raises. *)
Lemma get_weather_json_raises latitude longitude w resp e :
  w_http w (weather_request latitude longitude) = GetReturns resp ->
  is_success resp = true ->
  json_body resp = Raise e ->
  get_weather latitude longitude w =
    let w1 := emit (EvGet (weather_request latitude longitude)) w in
    if is_HTTPError e then
      (Return fallback,
       emit (EvLogError ("HTTP error during weather fetch: " +:+ exn_msg e)) w1)
    else if is_Exception e then
      (Return fallback,
       emit (EvLogError ("Unexpected error in get_weather(): " +:+ exn_msg e)) w1)
    else (Raise e, w1).
Proof.
  intros Hout Hst Hjs. unfold weather_request in *. run_weather.
  rewrite Hout. cbv beta iota zeta. rewrite Hst, Hjs. cbv beta iota zeta.
  destruct (is_HTTPError e); [reflexivity|].
  destruct (is_Exception e); reflexivity.
Qed.

(** The body is parsed but is not an object, or holds something that is
    not an object under [current]: [.get] is missing. *)
Lemma get_weather_not_an_object latitude longitude w resp data :
  w_http w (weather_request latitude longitude) = GetReturns resp ->
  is_success resp = true ->
  json_body resp = Return data ->
  (forall d cur, data = JDict d -> default (JDict ∅) (d !! "current") <> JDict cur) ->
  exists culprit,
    get_weather latitude longitude w =
      (Return fallback,
       emit (EvLogError
               ("Unexpected error in get_weather(): "
                +:+ ("'" +:+ type_name culprit +:+ "' object has no attribute 'get'")))
         (emit (EvGet (weather_request latitude longitude)) w)).
Proof.
  intros Hout Hst Hjs Hno. unfold weather_request in *. run_weather.
  rewrite Hout. cbv beta iota zeta. rewrite Hst, Hjs. cbv beta iota zeta.
  destruct data as [| | | | | |d];
    try (eexists; cbv beta iota delta [py_get]; reflexivity).
  cbv beta iota delta [py_get].
  specialize (Hno d).
  destruct (default (JDict ∅) (d !! "current")) as [| | | | | |cur] eqn:Hcur;
    try (eexists; reflexivity).
  now destruct (Hno cur).
Qed.

(** The way through the rules: a successful response whose body is an
    object with an object (or nothing) under [current]. *)
Lemma get_weather_current latitude longitude w resp d cur :
  w_http w (weather_request latitude longitude) = GetReturns resp ->
  is_success resp = true ->
  json_body resp = Return (JDict d) ->
  default (JDict ∅) (d !! "current") = JDict cur ->
  get_weather latitude longitude w =
    let temperature := default JNull (cur !! "temperature_2m") in
    let wind_speed := default JNull (cur !! "wind_speed_10m") in
    let is_day := default JNull (cur !! "is_day") in
    let w1 := emit (EvGet (weather_request latitude longitude)) w in
    let unexpected e :=
      (Return fallback,
       emit (EvLogError ("Unexpected error in get_weather(): " +:+ exn_msg e)) w1) in
    let answer condition :=
      (Return {[ "temperature" := temperature; "wind_speed" := wind_speed;
                 "condition" := JStr condition ]}, w1) in
    if is_None temperature || is_None wind_speed then answer "unknown"
    else
      match py_lt temperature 0 with
      | Raise e => unexpected e
      | Return true => answer "freezing"
      | Return false =>
          match py_gt wind_speed 40 with
          | Raise e => unexpected e
          | Return true => answer "windy"
          | Return false => answer (if py_bool is_day then "clear-day" else "clear-night")
          end
      end.
Proof.
  intros Hout Hst Hjs Hcur. unfold weather_request in *. run_weather.
  rewrite Hout. cbv beta iota zeta. rewrite Hst, Hjs. cbv beta iota zeta.
  cbv beta iota delta [py_get]. rewrite Hcur. cbv beta iota.
  destruct (is_None _ || is_None _); [reflexivity|].
  destruct (py_lt _ 0) as [[|]|e] eqn:Hlt; cbv beta iota; [reflexivity| |].
  - destruct (py_gt _ 40) as [[|]|e] eqn:Hgt; cbv beta iota; [reflexivity|reflexivity|].
    apply py_gt_raises, TypeError_caught in Hgt as [-> ->]. reflexivity.
  - apply py_lt_raises, TypeError_caught in Hlt as [-> ->]. reflexivity.
Qed.

(** A parsed body either leads to the rules or it does not. *)
Lemma current_section data :
  (exists d cur, data = JDict d /\ default (JDict ∅) (d !! "current") = JDict cur)
  \/ (forall d cur, data = JDict d -> default (JDict ∅) (d !! "current") <> JDict cur).
Proof.
  destruct data as [| | | | | |d]; try (right; intros; discriminate).
  destruct (default (JDict ∅) (d !! "current")) as [| | | | | |cur] eqn:Hcur;
    try (right; intros d' cur' [= <-]; rewrite Hcur; discriminate).
  left. eauto.
Qed.

(** The effects of one call: exactly one GET, then at most one line in the
    error log; the clock is not read. *)
Lemma get_weather_effects latitude longitude w :
  exists logs,
    snd (get_weather latitude longitude w) =
      {| w_http := w_http w; w_clock := w_clock w; w_reads := w_reads w;
         w_trace := w_trace w ++ EvGet (weather_request latitude longitude)
                                 :: map EvLogError logs |}
    /\ length logs <= 1.
Proof.
  assert (Hnone : exists logs,
    emit (EvGet (weather_request latitude longitude)) w =
      {| w_http := w_http w; w_clock := w_clock w; w_reads := w_reads w;
         w_trace := w_trace w ++ EvGet (weather_request latitude longitude)
                                 :: map EvLogError logs |}
    /\ length logs <= 1).
  { exists []. split; [reflexivity | simpl; lia]. }
  assert (Hone : forall m, exists logs,
    emit (EvLogError m) (emit (EvGet (weather_request latitude longitude)) w) =
      {| w_http := w_http w; w_clock := w_clock w; w_reads := w_reads w;
         w_trace := w_trace w ++ EvGet (weather_request latitude longitude)
                                 :: map EvLogError logs |}
    /\ length logs <= 1).
  { intros m. exists [m]. split; [|simpl; lia].
    unfold emit. cbn [w_http w_clock w_reads w_trace].
    now rewrite <- app_assoc. }
  destruct (w_http w (weather_request latitude longitude)) as [e|resp] eqn:Hout.
  { rewrite (get_weather_get_raises _ _ _ _ Hout). cbv zeta.
    destruct (is_HTTPError e); [apply Hone|].
    destruct (is_Exception e); [apply Hone | apply Hnone]. }
  destruct (is_success resp) eqn:Hst.
  2:{ rewrite (get_weather_bad_status _ _ _ _ Hout Hst). apply Hone. }
  destruct (json_body resp) as [data|e] eqn:Hjs.
  2:{ rewrite (get_weather_json_raises _ _ _ _ _ Hout Hst Hjs). cbv zeta.
      destruct (is_HTTPError e); [apply Hone|].
      destruct (is_Exception e); [apply Hone | apply Hnone]. }
  destruct (current_section data) as [(d & cur & -> & Hcur)|Hno].
  2:{ destruct (get_weather_not_an_object _ _ _ _ _ Hout Hst Hjs Hno) as [? ->].
      apply Hone. }
  rewrite (get_weather_current _ _ _ _ _ _ Hout Hst Hjs Hcur). cbv zeta.
  destruct (is_None _ || is_None _); [apply Hnone|].
  destruct (py_lt _ 0) as [[|]|e]; [apply Hnone | | apply Hone].
  destruct (py_gt _ 40) as [[|]|e]; [apply Hnone | apply Hnone | apply Hone].
Qed.

(** A call that returns does so with the fallback or through the rules. *)
Lemma get_weather_returns latitude longitude w res :
  fst (get_weather latitude longitude w) = Return res ->
  res = fallback
  \/ (exists resp d cur c,
        w_http w (weather_request latitude longitude) = GetReturns resp
        /\ is_success resp = true
        /\ json_body resp = Return (JDict d)
        /\ default (JDict ∅) (d !! "current") = JDict cur
        /\ condition_rule (default JNull (cur !! "temperature_2m"))
             (default JNull (cur !! "wind_speed_10m"))
             (default JNull (cur !! "is_day")) c
        /\ res = {[ "temperature" := default JNull (cur !! "temperature_2m");
                    "wind_speed" := default JNull (cur !! "wind_speed_10m");
                    "condition" := JStr c ]}).
Proof.
  assert (Hhandler : forall e (w1 : world) (m1 m2 : string),
    fst (if is_HTTPError e then (Return fallback, emit (EvLogError m1) w1)
         else if is_Exception e then (Return fallback, emit (EvLogError m2) w1)
         else (Raise e, w1)) = Return res ->
    res = fallback).
  { intros e w1 m1 m2. destruct (is_HTTPError e); [now intros [= <-]|].
    destruct (is_Exception e); [now intros [= <-] | discriminate]. }
  destruct (w_http w (weather_request latitude longitude)) as [e|resp] eqn:Hout.
  { rewrite (get_weather_get_raises _ _ _ _ Hout). cbv zeta.
    intros H. left. exact (Hhandler _ _ _ _ H). }
  destruct (is_success resp) eqn:Hst.
  2:{ rewrite (get_weather_bad_status _ _ _ _ Hout Hst). intros [= <-]. now left. }
  destruct (json_body resp) as [data|e] eqn:Hjs.
  2:{ rewrite (get_weather_json_raises _ _ _ _ _ Hout Hst Hjs). cbv zeta.
      intros H. left. exact (Hhandler _ _ _ _ H). }
  destruct (current_section data) as [(d & cur & -> & Hcur)|Hno].
  2:{ destruct (get_weather_not_an_object _ _ _ _ _ Hout Hst Hjs Hno) as [? ->].
      intros [= <-]. now left. }
  rewrite (get_weather_current _ _ _ _ _ _ Hout Hst Hjs Hcur). cbv zeta.
  set (t := default JNull (cur !! "temperature_2m")).
  set (ws := default JNull (cur !! "wind_speed_10m")).
  set (day := default JNull (cur !! "is_day")).
  assert (Hrules : forall c (w1 : world),
    condition_rule t ws day c ->
    fst (Return ({[ "temperature" := t; "wind_speed" := ws;
                    "condition" := JStr c ]} : gmap string json), w1) = Return res ->
    res = fallback
    \/ (exists resp0 d0 cur0 c0,
          GetReturns resp = GetReturns resp0
          /\ is_success resp0 = true
          /\ json_body resp0 = Return (JDict d0)
          /\ default (JDict ∅) (d0 !! "current") = JDict cur0
          /\ condition_rule (default JNull (cur0 !! "temperature_2m"))
               (default JNull (cur0 !! "wind_speed_10m"))
               (default JNull (cur0 !! "is_day")) c0
          /\ res = {[ "temperature" := default JNull (cur0 !! "temperature_2m");
                      "wind_speed" := default JNull (cur0 !! "wind_speed_10m");
                      "condition" := JStr c0 ]})).
  { intros c w1 Hrule [= <-]. right. exists resp, d, cur, c. repeat split; assumption. }
  destruct (is_None t || is_None ws) eqn:Hn.
  { apply Hrules, rule_unknown.
    apply orb_true_iff in Hn as [H|H]; apply is_None_spec in H; auto. }
  apply orb_false_iff in Hn as [Hn1 Hn2].
  assert (Ht : t <> JNull) by (intros E; apply is_None_spec in E; congruence).
  assert (Hws : ws <> JNull) by (intros E; apply is_None_spec in E; congruence).
  destruct (py_lt t 0) as [[|]|e] eqn:Hlt.
  - apply Hrules. now apply rule_freezing.
  - destruct (py_gt ws 40) as [[|]|e] eqn:Hgt.
    + apply Hrules. now apply rule_windy.
    + destruct (py_bool day) eqn:Hday; apply Hrules;
        [now apply rule_clear_day | now apply rule_clear_night].
    + intros [= <-]. now left.
  - intros [= <-]. now left.
Qed.

(** Unless the outcome raises outside [Exception], a call returns. *)
Lemma get_weather_returns_some latitude longitude w :
  ordinary_outcome (w_http w (weather_request latitude longitude)) = true ->
  exists res w', get_weather latitude longitude w = (Return res, w').
Proof.
  intros Hord.
  destruct (w_http w (weather_request latitude longitude)) as [e|resp] eqn:Hout;
    cbn [ordinary_outcome] in Hord.
  { rewrite (get_weather_get_raises _ _ _ _ Hout). cbv zeta.
    destruct (is_HTTPError e); [|rewrite Hord]; eauto. }
  destruct (is_success resp) eqn:Hst.
  2:{ rewrite (get_weather_bad_status _ _ _ _ Hout Hst). eauto. }
  destruct (json_body resp) as [data|e] eqn:Hjs.
  2:{ rewrite (get_weather_json_raises _ _ _ _ _ Hout Hst Hjs). cbv zeta.
      destruct (is_HTTPError e); [|rewrite Hord]; eauto. }
  destruct (current_section data) as [(d & cur & -> & Hcur)|Hno].
  2:{ destruct (get_weather_not_an_object _ _ _ _ _ Hout Hst Hjs Hno) as [? ->].
      eauto. }
  rewrite (get_weather_current _ _ _ _ _ _ Hout Hst Hjs Hcur). cbv zeta.
  destruct (is_None _ || is_None _); [eauto|].
  destruct (py_lt _ 0) as [[|]|e]; [eauto | | eauto].
  destruct (py_gt _ 40) as [[|]|e]; eauto.
Qed.

(** What [except Exception] does not catch goes up to the caller. *)
Lemma get_weather_propagates latitude longitude w e :
  w_http w (weather_request latitude longitude) = GetRaises e ->
  is_Exception e = false ->
  fst (get_weather latitude longitude w) = Raise e.
Proof.
  intros Hout He. rewrite (get_weather_get_raises _ _ _ _ Hout). cbv zeta.
  destruct (is_HTTPError e) eqn:Hh.
  - apply HTTPError_is_Exception in Hh. congruence.
  - now rewrite He.
Qed.

(** ** The request *)

(** C8: each call issues one GET, to the forecast endpoint, whose query
    parameters are exactly [latitude], [longitude], [current] (the list
    temperature_2m, wind_speed_10m, is_day), [wind_speed_unit] = kmh and
    [timezone] = UTC; it carries no header of the caller's and no
    credential. *)
Theorem get_weather_request latitude longitude w :
  exists r,
    requests_of (w_trace (snd (get_weather latitude longitude w)))
      = (requests_of (w_trace w) ++ [r])%list
    /\ req_url r = "https://api.open-meteo.com/v1/forecast"
    /\ dom (req_params r)
       = ({[ "latitude"; "longitude"; "current"; "wind_speed_unit"; "timezone" ]}
          : gset string)
    /\ req_params r !! "latitude" = Some (PFloat latitude)
    /\ req_params r !! "longitude" = Some (PFloat longitude)
    /\ req_params r !! "current"
       = Some (PList ["temperature_2m"; "wind_speed_10m"; "is_day"])
    /\ req_params r !! "wind_speed_unit" = Some (PStr "kmh")
    /\ req_params r !! "timezone" = Some (PStr "UTC")
    /\ req_headers r = ∅
    /\ req_auth r = None.
Proof.
  exists (weather_request latitude longitude).
  split.
  { destruct (get_weather_effects latitude longitude w) as (logs & -> & _).
    cbn [w_trace]. rewrite requests_of_app. f_equal.
    cbn [requests_of]. now rewrite requests_of_log. }
  split; [reflexivity|].
  cbn [weather_request req_params req_headers req_auth].
  split; [rewrite !dom_insert_L, dom_singleton_L; set_solver|].
  split; [apply lookup_insert_eq|].
  split; [rewrite lookup_insert_ne by done; apply lookup_insert_eq|].
  split; [rewrite !lookup_insert_ne by done; apply lookup_insert_eq|].
  split; [rewrite !lookup_insert_ne by done; apply lookup_insert_eq|].
  split; [rewrite !lookup_insert_ne by done; apply lookup_singleton_eq|].
  split; reflexivity.
Qed.

(** ** Failures of the upstream call *)

(** C4: when the forecast call times out, raises any other network-level
    fault, or answers with a status that is not a success, [get_weather]
    returns exactly the fallback: null temperature, null wind speed,
    condition "unknown"; the reason goes to the error log. *)
Theorem get_weather_http_failure latitude longitude w :
  http_failure (w_http w (weather_request latitude longitude)) ->
  get_weather latitude longitude w =
    (Return {[ "temperature" := JNull; "wind_speed" := JNull;
               "condition" := JStr "unknown" ]},
     emit (EvLogError
             ("HTTP error during weather fetch: "
              +:+ failure_reason (w_http w (weather_request latitude longitude))))
       (emit (EvGet (weather_request latitude longitude)) w)).
Proof.
  intros Hfail.
  destruct (w_http w (weather_request latitude longitude)) as [e|resp] eqn:Hout.
  - assert (He : is_HTTPError e = true).
    { inversion Hfail; subst; [now apply Timeout_is_HTTPError | assumption]. }
    rewrite (get_weather_get_raises _ _ _ _ Hout). cbv zeta. rewrite He. reflexivity.
  - assert (Hst : is_success resp = false) by (inversion Hfail; assumption).
    rewrite (get_weather_bad_status _ _ _ _ Hout Hst). reflexivity.
Qed.

(** A timeout, and a 503. *)
Lemma get_weather_http_failure_witness :
  http_failure (w_http (world_of timed_out) (weather_request 45 9))
  /\ fst (get_weather 45 9 (world_of timed_out)) =
       Return {[ "temperature" := JNull; "wind_speed" := JNull;
                 "condition" := JStr "unknown" ]}
  /\ fst (get_weather 45 9 (world_of unavailable)) =
       Return {[ "temperature" := JNull; "wind_speed" := JNull;
                 "condition" := JStr "unknown" ]}.
Proof.
  assert (H1 : http_failure (w_http (world_of timed_out) (weather_request 45 9))).
  { apply failure_timeout. reflexivity. }
  assert (H2 : http_failure (w_http (world_of unavailable) (weather_request 45 9))).
  { apply failure_status. reflexivity. }
  split; [exact H1|]. split.
  - exact (f_equal fst (get_weather_http_failure 45 9 (world_of timed_out) H1)).
  - exact (f_equal fst (get_weather_http_failure 45 9 (world_of unavailable) H2)).
Defined.



(** ** The rules *)

(** C3: on a successful response the rules are applied in their order:
    a missing temperature or wind speed gives "unknown"; otherwise a
    temperature below zero gives "freezing"; otherwise a wind speed above
    40 gives "windy"; otherwise the day flag decides between "clear-day"
    and "clear-night".  The readings are passed through as they came. *)
Theorem get_weather_rules latitude longitude w resp d cur c :
  w_http w (weather_request latitude longitude) = GetReturns resp ->
  is_success resp = true ->
  json_body resp = Return (JDict d) ->
  default (JDict ∅) (d !! "current") = JDict cur ->
  condition_rule (default JNull (cur !! "temperature_2m"))
    (default JNull (cur !! "wind_speed_10m"))
    (default JNull (cur !! "is_day")) c ->
  get_weather latitude longitude w =
    (Return {[ "temperature" := default JNull (cur !! "temperature_2m");
               "wind_speed" := default JNull (cur !! "wind_speed_10m");
               "condition" := JStr c ]},
     emit (EvGet (weather_request latitude longitude)) w).
Proof.
  intros Hout Hst Hjs Hcur Hrule.
  rewrite (get_weather_current _ _ _ _ _ _ Hout Hst Hjs Hcur). cbv zeta.
  destruct Hrule as [Hnull|Ht Hws Hlt|Ht Hws Hlt Hgt|Ht Hws Hlt Hgt Hday|Ht Hws Hlt Hgt Hday].
  - destruct Hnull as [-> | ->]; [reflexivity|]. now rewrite orb_true_r.
  - now rewrite (neither_None _ _ Ht Hws), Hlt.
  - now rewrite (neither_None _ _ Ht Hws), Hlt, Hgt.
  - now rewrite (neither_None _ _ Ht Hws), Hlt, Hgt, Hday.
  - now rewrite (neither_None _ _ Ht Hws), Hlt, Hgt, Hday.
Qed.

(** The two examples of the specification: -5 degrees and 10 km/h by day
    are "freezing"; 10 degrees and 50 km/h by night are "windy". *)
Lemma get_weather_rules_witness :
  get_weather 45 9 (world_of (answers (readings cold_day))) =
    (Return {[ "temperature" := JFloat (-5); "wind_speed" := JFloat 10;
               "condition" := JStr "freezing" ]},
     emit (EvGet (weather_request 45 9)) (world_of (answers (readings cold_day))))
  /\ get_weather 45 9 (world_of (answers (readings gale_night))) =
    (Return {[ "temperature" := JInt 10; "wind_speed" := JInt 50;
               "condition" := JStr "windy" ]},
     emit (EvGet (weather_request 45 9)) (world_of (answers (readings gale_night)))).
Proof.
  split.
  - refine (get_weather_rules 45 9 (world_of (answers (readings cold_day))) _
              {[ "latitude" := JFloat 45; "longitude" := JFloat 9;
                 "current" := JDict cold_day ]}
              cold_day "freezing" eq_refl eq_refl eq_refl eq_refl _).
    apply rule_freezing; [discriminate | discriminate | reflexivity].
  - refine (get_weather_rules 45 9 (world_of (answers (readings gale_night))) _
              {[ "latitude" := JFloat 45; "longitude" := JFloat 9;
                 "current" := JDict gale_night ]}
              gale_night "windy" eq_refl eq_refl eq_refl eq_refl _).
    apply rule_windy; [discriminate | discriminate | reflexivity | reflexivity].
Defined.

(** The last rule on the example of the specification: 10 degrees and
    10 km/h are "clear-day" by day and "clear-night" by night. *)
Example get_weather_mild :
  fst (get_weather 45 9 (world_of (answers (readings (mild 1))))) =
    Return {[ "temperature" := JFloat 10; "wind_speed" := JFloat 10;
              "condition" := JStr "clear-day" ]}
  /\ fst (get_weather 45 9 (world_of (answers (readings (mild 0))))) =
    Return {[ "temperature" := JFloat 10; "wind_speed" := JFloat 10;
              "condition" := JStr "clear-night" ]}.
Proof. split; reflexivity. Qed.

(** Frost and gale together: the earlier rule wins. *)
Example get_weather_frost_and_gale :
  fst (get_weather 45 9
         (world_of (answers (readings {[ "temperature_2m" := JFloat (-5);
                                         "wind_speed_10m" := JFloat 50;
                                         "is_day" := JInt 1 ]})))) =
    Return {[ "temperature" := JFloat (-5); "wind_speed" := JFloat 50;
              "condition" := JStr "freezing" ]}.
Proof. reflexivity. Qed.

(** A reading that does not compare with a number ends in the second
    [except] clause. *)
Example get_weather_text_reading :
  get_weather 45 9
    (world_of (answers (readings {[ "temperature_2m" := JStr "mild";
                                    "wind_speed_10m" := JInt 3 ]}))) =
    (Return fallback,
     {| w_http := fun _ => answers (readings {[ "temperature_2m" := JStr "mild";
                                                "wind_speed_10m" := JInt 3 ]});
        w_clock := w_clock (world_of timed_out);
        w_reads := 0;
        w_trace := [EvGet (weather_request 45 9);
                    EvLogError
                      ("Unexpected error in get_weather(): "
                       +:+ "'<' not supported between instances of 'str' and 'int'")] |}).
Proof. reflexivity. Qed.

(** ** The day flag *)

(** C10: a successful response that has, under [current], a temperature
    of at least 0 and a wind speed of at most 40, and no [is_day] (or a
    null or zero one), is answered with "clear-night": a missing flag
    counts as night. *)
Theorem get_weather_no_day_flag latitude longitude w resp d cur t ws :
  w_http w (weather_request latitude longitude) = GetReturns resp ->
  is_success resp = true ->
  json_body resp = Return (JDict d) ->
  d !! "current" = Some (JDict cur) ->
  cur !! "temperature_2m" = Some t -> number_ge t 0 ->
  cur !! "wind_speed_10m" = Some ws -> number_le ws 40 ->
  cur !! "is_day" = None \/ cur !! "is_day" = Some JNull
    \/ cur !! "is_day" = Some (JInt 0) ->
  get_weather latitude longitude w =
    (Return {[ "temperature" := t; "wind_speed" := ws;
               "condition" := JStr "clear-night" ]},
     emit (EvGet (weather_request latitude longitude)) w).
Proof.
  intros Hout Hst Hjs Hcur Ht Hge Hws Hle Hday.
  assert (Hcur' : default (JDict ∅) (d !! "current") = JDict cur) by now rewrite Hcur.
  rewrite (get_weather_current _ _ _ _ _ _ Hout Hst Hjs Hcur'). cbv zeta.
  assert (Et : default JNull (cur !! "temperature_2m") = t) by now rewrite Ht.
  assert (Ew : default JNull (cur !! "wind_speed_10m") = ws) by now rewrite Hws.
  rewrite Et, Ew.
  rewrite (number_ge_not_lt _ _ Hge), (number_le_not_gt _ _ Hle).
  assert (Hnn : is_None t || is_None ws = false).
  { apply neither_None; intros ->; contradiction. }
  rewrite Hnn.
  assert (Hflag : py_bool (default JNull (cur !! "is_day")) = false).
  { destruct Hday as [-> | [-> | ->]]; reflexivity. }
  rewrite Hflag. reflexivity.
Qed.

(** 10 degrees, 10 km/h, and no [is_day] in the body. *)
Lemma get_weather_no_day_flag_witness :
  get_weather 45 9 (world_of (answers (readings no_day_flag))) =
    (Return {[ "temperature" := JFloat 10; "wind_speed" := JInt 10;
               "condition" := JStr "clear-night" ]},
     emit (EvGet (weather_request 45 9)) (world_of (answers (readings no_day_flag)))).
Proof.
  refine (get_weather_no_day_flag 45 9 (world_of (answers (readings no_day_flag))) _
            {[ "latitude" := JFloat 45; "longitude" := JFloat 9;
               "current" := JDict no_day_flag ]}
            no_day_flag (JFloat 10) (JInt 10)
            eq_refl eq_refl eq_refl eq_refl eq_refl _ eq_refl _ _).
  - reflexivity.
  - simpl. lia.
  - left. reflexivity.
Defined.

(** ** The condition and the readings *)

(** C5: whatever the coordinates and whatever the outbound call does, a
    dictionary comes back (unless the outcome raises outside
    [Exception]), and a dictionary that comes back has under [condition]
    one of "unknown", "freezing", "windy", "clear-day", "clear-night". *)
Theorem get_weather_condition_vocabulary latitude longitude w :
  (ordinary_outcome (w_http w (weather_request latitude longitude)) = true ->
   exists res, fst (get_weather latitude longitude w) = Return res)
  /\ (forall res,
        fst (get_weather latitude longitude w) = Return res ->
        exists c,
          res !! "condition" = Some (JStr c)
          /\ In c ["unknown"; "freezing"; "windy"; "clear-day"; "clear-night"]).
Proof.
  split.
  - intros Hord.
    destruct (get_weather_returns_some latitude longitude w Hord) as (res & w' & ->).
    now exists res.
  - intros res Hres.
    destruct (get_weather_returns latitude longitude w res Hres)
      as [-> | (resp & d & cur & c & _ & _ & _ & _ & Hrule & ->)].
    + exists "unknown". split; [apply (weather_dict_lookup JNull JNull)|].
      simpl. tauto.
    + exists c. split; [apply weather_dict_lookup|].
      apply (condition_rule_vocabulary _ _ _ _ Hrule).
Qed.

(** The body without a day flag again. *)
Lemma get_weather_condition_vocabulary_witness :
  ordinary_outcome (w_http (world_of (answers (readings no_day_flag)))
                      (weather_request 45 9)) = true
  /\ (exists res,
        fst (get_weather 45 9 (world_of (answers (readings no_day_flag)))) = Return res)
  /\ exists c,
      ({[ "temperature" := JFloat 10; "wind_speed" := JInt 10;
          "condition" := JStr "clear-night" ]} : gmap string json) !! "condition"
      = Some (JStr c)
      /\ In c ["unknown"; "freezing"; "windy"; "clear-day"; "clear-night"].
Proof.
  split; [reflexivity|].
  destruct (get_weather_condition_vocabulary 45 9
              (world_of (answers (readings no_day_flag)))) as [Hsome Hvoc].
  split; [exact (Hsome eq_refl)|].
  exact (Hvoc _ eq_refl).
Defined.

(** C1, as the code has it: in every dictionary [get_weather] returns,
    the condition is "unknown" exactly when the temperature or the wind
    speed is null.  A condition that says something comes with both
    readings, and the fallback carries "unknown"; but one reading may be
    null next to the other, which is then passed through as it came. *)
Theorem get_weather_unknown_iff_null latitude longitude w res :
  fst (get_weather latitude longitude w) = Return res ->
  exists t ws c,
    res = {[ "temperature" := t; "wind_speed" := ws; "condition" := JStr c ]}
    /\ (c = "unknown" <-> t = JNull \/ ws = JNull).
Proof.
  intros Hres.
  destruct (get_weather_returns latitude longitude w res Hres)
    as [-> | (resp & d & cur & c & _ & _ & _ & _ & Hrule & ->)].
  - exists JNull, JNull, "unknown". split; [reflexivity|]. tauto.
  - eexists _, _, c. split; [reflexivity|].
    apply (condition_rule_unknown _ _ _ _ Hrule).
Qed.

(** On a cold day both readings are there and the condition is not
    "unknown". *)
Lemma get_weather_unknown_iff_null_witness :
  fst (get_weather 45 9 (world_of (answers (readings cold_day)))) =
    Return {[ "temperature" := JFloat (-5); "wind_speed" := JFloat 10;
              "condition" := JStr "freezing" ]}
  /\ exists t ws c,
      ({[ "temperature" := JFloat (-5); "wind_speed" := JFloat 10;
          "condition" := JStr "freezing" ]} : gmap string json)
      = {[ "temperature" := t; "wind_speed" := ws; "condition" := JStr c ]}
      /\ (c = "unknown" <-> t = JNull \/ ws = JNull).
Proof.
  split; [reflexivity|].
  apply (get_weather_unknown_iff_null 45 9 (world_of (answers (readings cold_day)))).
  reflexivity.
Defined.

(** C1 as the data model words it does not hold: a successful response
    with a temperature and a null wind speed comes back with the
    temperature, a null wind speed and the condition "unknown". *)
Lemma get_weather_partial_fallback :
  fst (get_weather 45 9 (world_of (answers (readings no_wind_reading)))) =
    Return {[ "temperature" := JFloat 12.5; "wind_speed" := JNull;
              "condition" := JStr "unknown" ]}
  /\ partial_fallback {[ "temperature" := JFloat 12.5; "wind_speed" := JNull;
                         "condition" := JStr "unknown" ]}.
Proof.
  split; [reflexivity|].
  exists (JFloat 12.5), JNull, "unknown".
  repeat split; try apply weather_dict_lookup.
  right. left. split; [discriminate | reflexivity].
Qed.

(** A cancelled call is not an outcome of the kind above: the exception
    is not an [Exception] and goes up. *)
Example get_weather_cancelled :
  fst (get_weather 45 9 (world_of cancelled)) =
    Raise {| exn_cls := CancelledError; exn_msg := "" |}.
Proof. now apply get_weather_propagates. Qed.

(** * Properties of the mission API *)

(** ** Timestamps *)

Lemma all_below_spec bound p :
  all_below bound p = true -> forall n, (n < bound)%N -> p n = true.
Proof.
  unfold all_below.
  set (f := fun st : N * bool => (N.succ (fst st), snd st && p (fst st))).
  assert (H : forall k, fst (N.iter k f (0%N, true)) = k
                        /\ (snd (N.iter k f (0%N, true)) = true ->
                            forall n, (n < k)%N -> p n = true)).
  { induction k as [|k [IH1 IH2]] using N.peano_ind.
    - split; [reflexivity|]. intros _ n Hn. lia.
    - rewrite N.iter_succ. unfold f at 1. cbn [fst snd]. rewrite IH1.
      split; [reflexivity|]. intros Hb n Hn.
      apply andb_true_iff in Hb as [Hb1 Hb2].
      destruct (N.eq_dec n k) as [->|Hne]; [now rewrite IH1 in Hb2|].
      apply IH2; [assumption | lia]. }
  intros Hb. apply (H bound). exact Hb.
Qed.

(** ["%02d"], ["%04d"] and ["%06d"] print exactly that many digits on the
    ranges of the fields of a [datetime]. *)
Lemma fmt_d_2 n : (n < 100)%N -> exact_digits 2 (fmt_d 2 n) = true.
Proof.
  apply (all_below_spec 100 (fun n => exact_digits 2 (fmt_d 2 n))).
  vm_compute. reflexivity.
Qed.

Lemma fmt_d_4 n : (n < 10000)%N -> exact_digits 4 (fmt_d 4 n) = true.
Proof.
  apply (all_below_spec 10000 (fun n => exact_digits 4 (fmt_d 4 n))).
  vm_compute. reflexivity.
Qed.

Lemma fmt_d_6 n : (n < 1000000)%N -> exact_digits 6 (fmt_d 6 n) = true.
Proof.
  apply (all_below_spec 1000000 (fun n => exact_digits 6 (fmt_d 6 n))).
  vm_compute. reflexivity.
Qed.

Lemma digits_then_app k s rest :
  exact_digits k s = true -> digits_then k (s +:+ rest) = Some rest.
Proof.
  revert s. induction k as [|k IH]; intros [|c s]; simpl; try discriminate.
  - reflexivity.
  - intros H. apply andb_true_iff in H as [-> H]. now apply IH.
Qed.

Lemma digits_then_exact k s :
  exact_digits k s = true -> digits_then k s = Some EmptyString.
Proof.
  revert s. induction k as [|k IH]; intros [|c s]; simpl; try discriminate.
  - reflexivity.
  - intros H. apply andb_true_iff in H as [-> H]. now apply IH.
Qed.

Lemma char_then_app c rest : char_then c (String c EmptyString +:+ rest) = Some rest.
Proof. simpl. now rewrite Ascii.eqb_refl. Qed.

Lemma datetime_bounds t :
  (year t < 10000 /\ month t < 100 /\ day t < 100 /\ hour t < 100
   /\ minute t < 100 /\ second t < 100 /\ microsecond t < 1000000)%N.
Proof.
  pose proof (datetime_ok t) as H. unfold datetime_fields_ok in H.
  repeat (apply andb_true_iff in H as [H ?]).
  repeat match goal with
    | H : (_ <=? _)%N = true |- _ => apply N.leb_le in H
    end.
  lia.
Qed.

(** [isoformat] prints the ISO 8601 extended form. *)
Lemma isoformat_iso8601 t : iso8601 (isoformat t) = true.
Proof.
  destruct (datetime_bounds t) as (Hy & Hmo & Hd & Hh & Hmi & Hs & Hus).
  unfold iso8601, isoformat.
  cbn [read_all read].
  rewrite (digits_then_app 4 _ _ (fmt_d_4 _ Hy)), char_then_app.
  rewrite (digits_then_app 2 _ _ (fmt_d_2 _ Hmo)), char_then_app.
  rewrite (digits_then_app 2 _ _ (fmt_d_2 _ Hd)), char_then_app.
  rewrite (digits_then_app 2 _ _ (fmt_d_2 _ Hh)), char_then_app.
  rewrite (digits_then_app 2 _ _ (fmt_d_2 _ Hmi)), char_then_app.
  rewrite (digits_then_app 2 _ _ (fmt_d_2 _ Hs)).
  destruct (microsecond t =? 0)%N; [reflexivity|].
  change ("." +:+ fmt_d 6 (microsecond t)) with (String "." (fmt_d 6 (microsecond t))).
  cbn [read_all read char_then]. rewrite Ascii.eqb_refl.
  rewrite (digits_then_exact 6 _ (fmt_d_6 _ Hus)). reflexivity.
Qed.

Example isoformat_noon_later :
  isoformat noon = "2024-05-17T12:00:00"
  /\ isoformat later = "2024-05-17T12:00:01.250000".
Proof. split; reflexivity. Qed.

(** ** [GET /health] *)

(** C9: [GET /health] takes nothing and cannot fail: the reply is a 200
    whose body has [status] = "ok" and, under [timestamp], the reading of
    the UTC clock taken by this very call, in ISO 8601 form; a second call
    reads the clock again. *)
Theorem get_health_ok w :
  get_health w =
    (Return {| status := 200;
               body := Some (JDict {[ "status" := JStr "ok";
                                      "timestamp" :=
                                        JStr (isoformat (w_clock w (w_reads w))) ]}) |},
     {| w_http := w_http w; w_clock := w_clock w; w_reads := S (w_reads w);
        w_trace := w_trace w |})
  /\ iso8601 (isoformat (w_clock w (w_reads w))) = true
  /\ fst ((get_health ;;; get_health) w) =
       Return {| status := 200;
                 body := Some (JDict {[ "status" := JStr "ok";
                                        "timestamp" :=
                                          JStr (isoformat (w_clock w (S (w_reads w)))) ]}) |}.
Proof.
  assert (Hfmap : forall s : string,
    JStr <$> ({[ "status" := "ok"; "timestamp" := s ]} : gmap string string)
    = {[ "status" := JStr "ok"; "timestamp" := JStr s ]}).
  { intros s. now rewrite fmap_insert, map_fmap_singleton. }
  split; [|split].
  - cbv beta iota delta [get_health health_check bind ret utcnow]. now rewrite Hfmap.
  - apply isoformat_iso8601.
  - cbv beta iota delta [get_health health_check bind ret utcnow fst w_clock w_reads].
    now rewrite Hfmap.
Qed.

(** Two calls in a row, the clock moving in between. *)
Example get_health_twice :
  fst (get_health (world_of timed_out)) =
    Return {| status := 200;
              body := Some (JDict {[ "status" := JStr "ok";
                                     "timestamp" := JStr "2024-05-17T12:00:00" ]}) |}
  /\ fst ((get_health ;;; get_health) (world_of timed_out)) =
    Return {| status := 200;
              body := Some (JDict {[ "status" := JStr "ok";
                                     "timestamp" := JStr "2024-05-17T12:00:01.250000" ]}) |}.
Proof. split; vm_compute; reflexivity. Qed.

(** ** [POST /mission] *)

Section MissionAPI_facts.

Variable MissionRequest : Type.
Variable mission_latitude mission_longitude : MissionRequest -> float.
Variable mission_dict : MissionRequest -> gmap string json.
Variable mission_validate : json -> option MissionRequest.


End MissionAPI_facts.


(** The example of the specification with the weather service up: the
    mission keeps its name, the weather is what the client returned. *)
Example post_mission_alpha :
  fst (post_mission_spec alpha (world_of (answers (readings (mild 1))))) =
    Return {| status := 200;
              body := Some (JDict
                {[ "mission" := JDict {[ "latitude" := JFloat 45;
                                         "longitude" := JFloat 9;
                                         "name" := JStr "Alpha" ]};
                   "weather" := JDict {[ "temperature" := JFloat 10;
                                         "wind_speed" := JFloat 10;
                                         "condition" := JStr "clear-day" ]};
                   "ingestion_timestamp" := JStr "2024-05-17T12:00:00" ]}) |}.
Proof. vm_compute. reflexivity. Qed.

(** C7: a body whose latitude is outside -90..90, or whose longitude is
    outside -180..180, or where one of the two is missing or not a
    number, is answered with 422, and nothing else happens: no GET is
    issued, nothing is logged, the clock is not read. *)
Theorem post_mission_rejects request_body w :
  schema_violation request_body ->
  post_mission_spec request_body w = (Return {| status := 422; body := None |}, w)
  /\ requests_of (w_trace (snd (post_mission_spec request_body w)))
     = requests_of (w_trace w).
Proof.
  intros Hbad.
  assert (Hfield : forall lo hi v,
            field_violation lo hi v -> models.number_in_range lo hi v = None).
  { intros lo hi [x|]; [|reflexivity].
    destruct x as [| |z|f| | |]; simpl; try reflexivity.
    - intros [[]|[Hlt|Hgt]].
      + apply Z.leb_gt in Hlt. now rewrite Hlt.
      + apply Z.leb_gt in Hgt. rewrite Hgt. now rewrite andb_false_r.
    - intros [[]|[Hlt|Hgt]].
      + destruct (float_of_literal lo <=? f)%float eqn:Hle; [|reflexivity].
        apply leb_not_ltb in Hle. congruence.
      + destruct (f <=? float_of_literal hi)%float eqn:Hle;
          [|now rewrite andb_false_r].
        apply leb_not_ltb in Hle. congruence. }
  assert (Hnone : models.validate request_body = None).
  { destruct request_body as [| | | | | |d]; try reflexivity.
    cbn [schema_violation] in Hbad. cbn [models.validate].
    destruct Hbad as [H|H]; apply Hfield in H; rewrite H; [reflexivity|].
    now destruct (models.number_in_range (-90) 90 (d !! "latitude")). }
  assert (Hrun : post_mission_spec request_body w
                 = (Return {| status := 422; body := None |}, w)).
  { unfold post_mission_spec, post_mission. now rewrite Hnone. }
  split; [exact Hrun|]. now rewrite Hrun.
Qed.

(** Latitude 200: refused, and no request goes out. *)
Lemma post_mission_rejects_witness :
  schema_violation off_the_globe
  /\ post_mission_spec off_the_globe (world_of (answers (readings cold_day)))
     = (Return {| status := 422; body := None |}, world_of (answers (readings cold_day)))
  /\ requests_of
       (w_trace (snd (post_mission_spec off_the_globe
                        (world_of (answers (readings cold_day))))))
     = [].
Proof.
  assert (Hbad : schema_violation off_the_globe).
  { left. right. right. simpl. lia. }
  split; [exact Hbad|].
  exact (post_mission_rejects off_the_globe (world_of (answers (readings cold_day))) Hbad).
Defined.

(** * Further properties *)

(** ** The error log *)




(** ** Exceptions that are not HTTP errors *)

(** X1: an exception of the outbound call that is not an
    [httpx.HTTPError], raised by the GET or by [json()] on a response
    with a good status, ends in the second [except] clause: the fallback
    comes back and the log line starts with "Unexpected error in
    get_weather(): ", not with the line of the HTTP errors. *)
Theorem get_weather_unexpected latitude longitude w e :
  unexpected_failure (w_http w (weather_request latitude longitude)) e ->
  get_weather latitude longitude w =
    (Return {[ "temperature" := JNull; "wind_speed" := JNull;
               "condition" := JStr "unknown" ]},
     emit (EvLogError ("Unexpected error in get_weather(): " +:+ exn_msg e))
       (emit (EvGet (weather_request latitude longitude)) w)).
Proof.
  intros Hfail.
  destruct (w_http w (weather_request latitude longitude)) as [e0|resp] eqn:Hout;
    inversion Hfail; subst.
  - rewrite (get_weather_get_raises _ _ _ _ Hout). cbv zeta.
    match goal with H : is_HTTPError _ = false |- _ => rewrite H end.
    match goal with H : is_Exception _ = true |- _ => rewrite H end.
    reflexivity.
  - match goal with Hs : is_success _ = true, Hj : json_body _ = Raise _ |- _ =>
      rewrite (get_weather_json_raises _ _ _ _ _ Hout Hs Hj) end.
    cbv zeta.
    match goal with H : is_HTTPError _ = false |- _ => rewrite H end.
    match goal with H : is_Exception _ = true |- _ => rewrite H end.
    reflexivity.
Qed.

(** A 200 response whose body is not JSON. *)
Lemma get_weather_unexpected_witness :
  unexpected_failure (w_http (world_of garbled) (weather_request 45 9))
    {| exn_cls := JSONDecodeError;
       exn_msg := "Expecting value: line 1 column 1 (char 0)" |}
  /\ errors_of (w_trace (snd (get_weather 45 9 (world_of garbled)))) =
       ["Unexpected error in get_weather(): Expecting value: line 1 column 1 (char 0)"].
Proof.
  assert (H : unexpected_failure (w_http (world_of garbled) (weather_request 45 9))
                {| exn_cls := JSONDecodeError;
                   exn_msg := "Expecting value: line 1 column 1 (char 0)" |}).
  { apply unexpected_json; reflexivity. }
  split; [exact H|].
  rewrite (get_weather_unexpected 45 9 (world_of garbled) _ H). reflexivity.
Defined.

(** ** Bodies without the expected shape *)

(** X2: when the parsed body is not an object, or holds under [current]
    something that is not an object (null included), the call returns the
    fallback and logs the [AttributeError] of the missing [get], which
    names the type of the offending value. *)
Theorem get_weather_no_get latitude longitude w resp data culprit :
  w_http w (weather_request latitude longitude) = GetReturns resp ->
  is_success resp = true ->
  json_body resp = Return data ->
  get_less data culprit ->
  get_weather latitude longitude w =
    (Return {[ "temperature" := JNull; "wind_speed" := JNull;
               "condition" := JStr "unknown" ]},
     emit (EvLogError
             ("Unexpected error in get_weather(): "
              +:+ ("'" +:+ type_name culprit +:+ "' object has no attribute 'get'")))
       (emit (EvGet (weather_request latitude longitude)) w)).
Proof.
  intros Hout Hst Hjs Hless. unfold weather_request in *. run_weather.
  rewrite Hout. cbv beta iota zeta. rewrite Hst, Hjs. cbv beta iota zeta.
  destruct Hless as [Hno | d v -> Hcur Hno].
  - destruct data as [| | | | | |d]; try reflexivity. now destruct (Hno d).
  - cbv beta iota delta [py_get]. rewrite Hcur.
    destruct v as [| | | | | |cur]; try reflexivity. now destruct (Hno cur).
Qed.

(** A body with [current] set to null. *)
Lemma get_weather_no_get_witness :
  get_less (JDict {[ "current" := JNull ]}) JNull
  /\ get_weather 45 9 (world_of (answers (JDict {[ "current" := JNull ]}))) =
    (Return {[ "temperature" := JNull; "wind_speed" := JNull;
               "condition" := JStr "unknown" ]},
     emit (EvLogError
             "Unexpected error in get_weather(): 'NoneType' object has no attribute 'get'")
       (emit (EvGet (weather_request 45 9))
          (world_of (answers (JDict {[ "current" := JNull ]}))))).
Proof.
  assert (H : get_less (JDict {[ "current" := JNull ]}) JNull).
  { apply (current_not_an_object _ {[ "current" := JNull ]});
      [reflexivity | reflexivity | discriminate]. }
  split; [exact H|].
  exact (get_weather_no_get 45 9 (world_of (answers (JDict {[ "current" := JNull ]})))
           _ _ JNull eq_refl eq_refl eq_refl H).
Defined.

(** X3: a successful response whose body is an object with no [current],
    or with a [current] whose temperature and wind speed are both missing
    or null, is answered with the null readings and "unknown" and nothing
    is logged: the same dictionary as the fallback, without an error. *)
Theorem get_weather_no_readings latitude longitude w resp d :
  w_http w (weather_request latitude longitude) = GetReturns resp ->
  is_success resp = true ->
  json_body resp = Return (JDict d) ->
  d !! "current" = None
    \/ (exists cur, d !! "current" = Some (JDict cur)
          /\ absent (cur !! "temperature_2m") /\ absent (cur !! "wind_speed_10m")) ->
  get_weather latitude longitude w =
    (Return {[ "temperature" := JNull; "wind_speed" := JNull;
               "condition" := JStr "unknown" ]},
     emit (EvGet (weather_request latitude longitude)) w).
Proof.
  intros Hout Hst Hjs Hcur.
  assert (Habsent : forall v, absent v -> default JNull v = JNull).
  { intros v [-> | ->]; reflexivity. }
  destruct Hcur as [Hnone | (cur & Hsome & Ht & Hws)].
  - assert (Hcur : default (JDict ∅) (d !! "current") = JDict ∅) by now rewrite Hnone.
    rewrite (get_weather_current _ _ _ _ _ _ Hout Hst Hjs Hcur). cbv zeta.
    rewrite !lookup_empty. reflexivity.
  - assert (Hcur : default (JDict ∅) (d !! "current") = JDict cur) by now rewrite Hsome.
    rewrite (get_weather_current _ _ _ _ _ _ Hout Hst Hjs Hcur). cbv zeta.
    rewrite (Habsent _ Ht), (Habsent _ Hws). reflexivity.
Qed.

(** An empty object. *)
Lemma get_weather_no_readings_witness :
  get_weather 45 9 (world_of (answers (JDict ∅))) =
    (Return {[ "temperature" := JNull; "wind_speed" := JNull;
               "condition" := JStr "unknown" ]},
     emit (EvGet (weather_request 45 9)) (world_of (answers (JDict ∅))))
  /\ errors_of (w_trace (snd (get_weather 45 9 (world_of (answers (JDict ∅)))))) = [].
Proof.
  assert (H : get_weather 45 9 (world_of (answers (JDict ∅))) =
    (Return {[ "temperature" := JNull; "wind_speed" := JNull;
               "condition" := JStr "unknown" ]},
     emit (EvGet (weather_request 45 9)) (world_of (answers (JDict ∅))))).
  { apply (get_weather_no_readings 45 9 (world_of (answers (JDict ∅))) _ ∅
             eq_refl eq_refl eq_refl).
    left. reflexivity. }
  split; [exact H|]. rewrite H. reflexivity.
Defined.

(** ** Readings that are not numbers *)

Lemma unorderable_lt v k : orderable v = false -> py_lt v k = Raise (not_supported "<" v).
Proof. destruct v; simpl; intros H; try discriminate; reflexivity. Qed.

Lemma unorderable_gt v k : orderable v = false -> py_gt v k = Raise (not_supported ">" v).
Proof. destruct v; simpl; intros H; try discriminate; reflexivity. Qed.

Lemma number_lt_below v k : number_lt v k -> py_lt v k = Return true.
Proof.
  destruct v; simpl; try contradiction; intros H.
  - f_equal. apply Z.ltb_lt. exact H.
  - now f_equal.
Qed.

(** X4: with both readings present, a reading that the rules compare and
    that is not a number (a string, a list, an object) makes the call
    return the fallback, and the [TypeError] of the comparison is logged:
    for the temperature always, for the wind speed when the temperature
    is not below zero. *)
Theorem get_weather_unorderable latitude longitude w resp d cur t ws e :
  w_http w (weather_request latitude longitude) = GetReturns resp ->
  is_success resp = true ->
  json_body resp = Return (JDict d) ->
  d !! "current" = Some (JDict cur) ->
  cur !! "temperature_2m" = Some t -> t <> JNull ->
  cur !! "wind_speed_10m" = Some ws -> ws <> JNull ->
  failing_comparison t ws e ->
  get_weather latitude longitude w =
    (Return {[ "temperature" := JNull; "wind_speed" := JNull;
               "condition" := JStr "unknown" ]},
     emit (EvLogError ("Unexpected error in get_weather(): " +:+ exn_msg e))
       (emit (EvGet (weather_request latitude longitude)) w)).
Proof.
  intros Hout Hst Hjs Hcur Ht Htn Hws Hwn Hfail.
  assert (Hcur' : default (JDict ∅) (d !! "current") = JDict cur) by now rewrite Hcur.
  rewrite (get_weather_current _ _ _ _ _ _ Hout Hst Hjs Hcur'). cbv zeta.
  assert (Et : default JNull (cur !! "temperature_2m") = t) by now rewrite Ht.
  assert (Ew : default JNull (cur !! "wind_speed_10m") = ws) by now rewrite Hws.
  rewrite Et, Ew, (neither_None _ _ Htn Hwn).
  destruct Hfail as [Hbad | Hlt Hbad].
  - now rewrite (unorderable_lt _ _ Hbad).
  - now rewrite Hlt, (unorderable_gt _ _ Hbad).
Qed.

(** A temperature in words. *)
Lemma get_weather_unorderable_witness :
  failing_comparison (JStr "mild") (JInt 3) (not_supported "<" (JStr "mild"))
  /\ get_weather 45 9 (world_of (answers (readings words_and_breeze))) =
    (Return {[ "temperature" := JNull; "wind_speed" := JNull;
               "condition" := JStr "unknown" ]},
     emit (EvLogError
             ("Unexpected error in get_weather(): "
              +:+ "'<' not supported between instances of 'str' and 'int'"))
       (emit (EvGet (weather_request 45 9))
          (world_of (answers (readings words_and_breeze))))).
Proof.
  assert (H : failing_comparison (JStr "mild") (JInt 3) (not_supported "<" (JStr "mild"))).
  { apply temperature_unorderable. reflexivity. }
  split; [exact H|].
  refine (get_weather_unorderable 45 9 (world_of (answers (readings words_and_breeze))) _
            {[ "latitude" := JFloat 45; "longitude" := JFloat 9;
               "current" := JDict words_and_breeze ]}
            words_and_breeze (JStr "mild") (JInt 3) _
            eq_refl eq_refl eq_refl eq_refl eq_refl _ eq_refl _ H); discriminate.
Defined.

(** X5: a temperature below zero settles the condition before the wind
    speed is looked at: whatever is there under [wind_speed_10m], if it
    is not null the answer is "freezing" and the wind speed is handed
    back as it came, a number or not. *)
Theorem get_weather_freezing_first latitude longitude w resp d cur t ws :
  w_http w (weather_request latitude longitude) = GetReturns resp ->
  is_success resp = true ->
  json_body resp = Return (JDict d) ->
  d !! "current" = Some (JDict cur) ->
  cur !! "temperature_2m" = Some t -> number_lt t 0 ->
  cur !! "wind_speed_10m" = Some ws -> ws <> JNull ->
  get_weather latitude longitude w =
    (Return {[ "temperature" := t; "wind_speed" := ws; "condition" := JStr "freezing" ]},
     emit (EvGet (weather_request latitude longitude)) w).
Proof.
  intros Hout Hst Hjs Hcur Ht Hlt Hws Hwn.
  assert (Hcur' : default (JDict ∅) (d !! "current") = JDict cur) by now rewrite Hcur.
  rewrite (get_weather_current _ _ _ _ _ _ Hout Hst Hjs Hcur'). cbv zeta.
  assert (Et : default JNull (cur !! "temperature_2m") = t) by now rewrite Ht.
  assert (Ew : default JNull (cur !! "wind_speed_10m") = ws) by now rewrite Hws.
  assert (Htn : t <> JNull) by (intros ->; contradiction).
  rewrite Et, Ew, (neither_None _ _ Htn Hwn), (number_lt_below _ _ Hlt). reflexivity.
Qed.

(** -5 degrees and a wind speed in words. *)
Lemma get_weather_freezing_first_witness :
  get_weather 45 9 (world_of (answers (readings frost_and_words))) =
    (Return {[ "temperature" := JFloat (-5); "wind_speed" := JStr "strong";
               "condition" := JStr "freezing" ]},
     emit (EvGet (weather_request 45 9)) (world_of (answers (readings frost_and_words)))).
Proof.
  refine (get_weather_freezing_first 45 9 (world_of (answers (readings frost_and_words))) _
            {[ "latitude" := JFloat 45; "longitude" := JFloat 9;
               "current" := JDict frost_and_words ]}
            frost_and_words (JFloat (-5)) (JStr "strong")
            eq_refl eq_refl eq_refl eq_refl eq_refl _ eq_refl _).
  - reflexivity.
  - discriminate.
Defined.

(** ** The bounds of the rules *)

(** X6: the comparisons are strict.  With a temperature of at least 0 and
    a wind speed of at most 40, both bounds included, the condition is
    "clear-day" when [is_day] is truthy and "clear-night" otherwise:
    exactly 0 degrees is not "freezing" and exactly 40 km/h is not
    "windy". *)
Theorem get_weather_clear latitude longitude w resp d cur t ws :
  w_http w (weather_request latitude longitude) = GetReturns resp ->
  is_success resp = true ->
  json_body resp = Return (JDict d) ->
  d !! "current" = Some (JDict cur) ->
  cur !! "temperature_2m" = Some t -> number_ge t 0 ->
  cur !! "wind_speed_10m" = Some ws -> number_le ws 40 ->
  get_weather latitude longitude w =
    (Return {[ "temperature" := t; "wind_speed" := ws;
               "condition" :=
                 JStr (if py_bool (default JNull (cur !! "is_day"))
                       then "clear-day" else "clear-night") ]},
     emit (EvGet (weather_request latitude longitude)) w).
Proof.
  intros Hout Hst Hjs Hcur Ht Hge Hws Hle.
  assert (Hcur' : default (JDict ∅) (d !! "current") = JDict cur) by now rewrite Hcur.
  rewrite (get_weather_current _ _ _ _ _ _ Hout Hst Hjs Hcur'). cbv zeta.
  assert (Et : default JNull (cur !! "temperature_2m") = t) by now rewrite Ht.
  assert (Ew : default JNull (cur !! "wind_speed_10m") = ws) by now rewrite Hws.
  assert (Hnn : is_None t || is_None ws = false).
  { apply neither_None; intros ->; contradiction. }
  rewrite Et, Ew, Hnn, (number_ge_not_lt _ _ Hge), (number_le_not_gt _ _ Hle).
  reflexivity.
Qed.

(** Exactly 0 degrees and exactly 40 km/h, by day. *)
Lemma get_weather_clear_witness :
  get_weather 45 9 (world_of (answers (readings on_the_bounds))) =
    (Return {[ "temperature" := JInt 0; "wind_speed" := JFloat 40;
               "condition" := JStr "clear-day" ]},
     emit (EvGet (weather_request 45 9)) (world_of (answers (readings on_the_bounds)))).
Proof.
  refine (get_weather_clear 45 9 (world_of (answers (readings on_the_bounds))) _
            {[ "latitude" := JFloat 45; "longitude" := JFloat 9;
               "current" := JDict on_the_bounds ]}
            on_the_bounds (JInt 0) (JFloat 40)
            eq_refl eq_refl eq_refl eq_refl eq_refl _ eq_refl _).
  - simpl. lia.
  - reflexivity.
Defined.

(** ** What the answer depends on *)

(** X7: the answer on a successful response depends on the values under
    [temperature_2m] and [wind_speed_10m] (missing counting as null) and
    on the truth value of [is_day], and on nothing else: not on the
    coordinates, not on other fields of the body or of [current]. *)
Theorem get_weather_three_fields
    latitude1 longitude1 w1 resp1 d1 cur1 latitude2 longitude2 w2 resp2 d2 cur2 :
  w_http w1 (weather_request latitude1 longitude1) = GetReturns resp1 ->
  is_success resp1 = true ->
  json_body resp1 = Return (JDict d1) ->
  default (JDict ∅) (d1 !! "current") = JDict cur1 ->
  w_http w2 (weather_request latitude2 longitude2) = GetReturns resp2 ->
  is_success resp2 = true ->
  json_body resp2 = Return (JDict d2) ->
  default (JDict ∅) (d2 !! "current") = JDict cur2 ->
  default JNull (cur1 !! "temperature_2m") = default JNull (cur2 !! "temperature_2m") ->
  default JNull (cur1 !! "wind_speed_10m") = default JNull (cur2 !! "wind_speed_10m") ->
  py_bool (default JNull (cur1 !! "is_day")) = py_bool (default JNull (cur2 !! "is_day")) ->
  fst (get_weather latitude1 longitude1 w1) = fst (get_weather latitude2 longitude2 w2).
Proof.
  intros Hout1 Hst1 Hjs1 Hcur1 Hout2 Hst2 Hjs2 Hcur2 Et Ew Eday.
  rewrite (get_weather_current _ _ _ _ _ _ Hout1 Hst1 Hjs1 Hcur1).
  rewrite (get_weather_current _ _ _ _ _ _ Hout2 Hst2 Hjs2 Hcur2).
  cbv zeta. rewrite Et, Ew, Eday.
  destruct (is_None _ || is_None _); [reflexivity|].
  destruct (py_lt _ 0) as [[|]|e]; [reflexivity | | reflexivity].
  destruct (py_gt _ 40) as [[|]|e]; reflexivity.
Qed.

(** The cold day, asked for two places, once with more fields in the
    body. *)
Lemma get_weather_three_fields_witness :
  fst (get_weather 45 9 (world_of (answers (readings cold_day)))) =
  fst (get_weather (-33.5) 151 (world_of (answers (readings cold_day_and_more)))).
Proof.
  refine (get_weather_three_fields
            45 9 (world_of (answers (readings cold_day))) _
            {[ "latitude" := JFloat 45; "longitude" := JFloat 9;
               "current" := JDict cold_day ]} cold_day
            (-33.5) 151 (world_of (answers (readings cold_day_and_more))) _
            {[ "latitude" := JFloat 45; "longitude" := JFloat 9;
               "current" := JDict cold_day_and_more ]} cold_day_and_more
            eq_refl eq_refl eq_refl eq_refl eq_refl eq_refl eq_refl eq_refl _ _ _);
    reflexivity.
Defined.

(** ** Calls in a row *)

(** X8: nothing is kept from one call to the next: a second call, after a
    first one that returned, sends its own GET, so that two calls leave
    two requests in the trace, in their order. *)
Theorem get_weather_not_cached latitude1 longitude1 latitude2 longitude2 w :
  ordinary_outcome (w_http w (weather_request latitude1 longitude1)) = true ->
  requests_of
    (w_trace (snd ((get_weather latitude1 longitude1 ;;;
                    get_weather latitude2 longitude2) w)))
  = (requests_of (w_trace w)
     ++ [weather_request latitude1 longitude1; weather_request latitude2 longitude2])%list.
Proof.
  intros Hord.
  destruct (get_weather_returns_some latitude1 longitude1 w Hord) as (res & w' & Hrun).
  destruct (get_weather_effects latitude1 longitude1 w) as (logs1 & Heff1 & _).
  rewrite Hrun in Heff1. cbn [snd] in Heff1.
  destruct (get_weather_effects latitude2 longitude2 w') as (logs2 & Heff2 & _).
  unfold bind. rewrite Hrun, Heff2, Heff1. cbn [w_trace].
  rewrite !requests_of_app. cbn [requests_of].
  rewrite !requests_of_log, <- app_assoc. reflexivity.
Qed.

(** Twice the same place while the service is down. *)
Lemma get_weather_not_cached_witness :
  requests_of
    (w_trace (snd ((get_weather 45 9 ;;; get_weather 45 9) (world_of unavailable))))
  = [weather_request 45 9; weather_request 45 9].
Proof.
  exact (get_weather_not_cached 45 9 45 9 (world_of unavailable) eq_refl).
Defined.

(** ** What is logged *)



(** ** [create_mission] and the weather client *)

Section create_mission_facts.

Variable MissionRequest : Type.
Variable mission_latitude mission_longitude : MissionRequest -> float.
Variable mission_dict : MissionRequest -> gmap string json.

(** What [create_mission] does after the weather call. *)
Lemma create_mission_run mission w :
  create_mission MissionRequest mission_latitude mission_longitude mission_dict mission w =
    match get_weather (mission_latitude mission) (mission_longitude mission) w with
    | (Return weather_data, w1) =>
        (Return {[ "mission" := JDict (mission_dict mission);
                   "weather" := JDict weather_data;
                   "ingestion_timestamp" := JStr (isoformat (w_clock w1 (w_reads w1))) ]},
         {| w_http := w_http w1; w_clock := w_clock w1; w_reads := S (w_reads w1);
            w_trace := w_trace w1 |})
    | (Raise e, w1) => (Raise e, w1)
    end.
Proof.
  cbv beta iota zeta delta [create_mission bind ret utcnow].
  destruct (get_weather _ _ w) as [[weather_data|e] w1]; reflexivity.
Qed.

(** X10: [create_mission] sends exactly one GET, and that request carries
    the coordinates of the mission, the latitude under [latitude] and the
    longitude under [longitude]; this holds whether the weather call
    returns or raises. *)
Theorem create_mission_request mission w :
  exists r,
    requests_of
      (w_trace (snd (create_mission MissionRequest mission_latitude mission_longitude
                       mission_dict mission w)))
      = (requests_of (w_trace w) ++ [r])%list
    /\ req_url r = API_URL
    /\ req_params r !! "latitude" = Some (PFloat (mission_latitude mission))
    /\ req_params r !! "longitude" = Some (PFloat (mission_longitude mission)).
Proof.
  exists (weather_request (mission_latitude mission) (mission_longitude mission)).
  split.
  { rewrite create_mission_run.
    destruct (get_weather_effects (mission_latitude mission) (mission_longitude mission) w)
      as (logs & Heff & _).
    destruct (get_weather _ _ w) as [[weather_data|e] w1]; cbn [snd] in *; subst w1;
      cbn [w_trace]; rewrite requests_of_app; cbn [requests_of];
      now rewrite requests_of_log. }
  split; [reflexivity|].
  cbn [weather_request req_params].
  split; [apply lookup_insert_eq|].
  rewrite lookup_insert_ne by done. apply lookup_insert_eq.
Qed.

(** X11: when the weather call raises something that is not an
    [Exception] (the request is cancelled while it waits), the handler
    stops there: the exception goes up, no record is built, the clock is
    not read and nothing is logged. *)
Theorem create_mission_propagates mission w e :
  w_http w (weather_request (mission_latitude mission) (mission_longitude mission))
    = GetRaises e ->
  is_Exception e = false ->
  create_mission MissionRequest mission_latitude mission_longitude mission_dict mission w =
    (Raise e,
     emit (EvGet (weather_request (mission_latitude mission) (mission_longitude mission))) w).
Proof.
  intros Hout He. rewrite create_mission_run.
  rewrite (get_weather_get_raises _ _ _ _ Hout). cbv zeta.
  destruct (is_HTTPError e) eqn:Hh.
  - apply HTTPError_is_Exception in Hh. congruence.
  - now rewrite He.
Qed.

End create_mission_facts.

(** The mission of the example, cancelled while the forecast is awaited. *)
Lemma create_mission_propagates_witness :
  create_mission models.MissionRequest models.latitude models.longitude models.dict
    alpha_mission (world_of cancelled) =
    (Raise {| exn_cls := CancelledError; exn_msg := "" |},
     emit (EvGet (weather_request 45 9)) (world_of cancelled)).
Proof.
  exact (create_mission_propagates models.MissionRequest models.latitude models.longitude
           models.dict alpha_mission (world_of cancelled) _ eq_refl eq_refl).
Defined.
